(** * waste_opt: stop filtering, distance matrix, route extraction and report

    A shallow embedding of [src/waste_opt.py].  Python dictionaries are
    insertion-ordered, so they are association lists here (their keys are
    pairwise distinct); Python integers are [Z]; the floats the program
    computes with (distances, matrix entries) are binary64 numbers, Rocq's
    primitive [float], with their own division, multiplication, infinities
    and NaN; the decimal constants it only passes on (coordinates, the line
    opacity, the cost constants) are the rationals their text denotes.
    Calls that leave the program (the OSRM service, the OR-tools search) are
    oracles: function parameters of the definitions that use them. *)

From Stdlib Require Import List String Ascii ZArith QArith Qround Lia Bool Permutation Arith.
From Stdlib Require Import Floats Uint63.
Import ListNotations.

Local Open Scope string_scope.
Local Open Scope Z_scope.
Local Open Scope list_scope.

(** ** Exceptions *)

(** The Python exceptions the modelled code can meet.  All of them derive
    from [Exception], so an [except Exception] clause catches each one. *)
Inductive PyException : Type :=
| OverflowError            (* int(float('inf')) *)
| ValueError               (* int(float('nan')) *)
| IndexError               (* list index out of range *)
| KeyError                 (* a missing key while reading a response *)
| RequestException         (* transport failure of requests.get *)
| JSONDecodeError.         (* the body is not JSON *)

(** A computation that returns a value or raises. *)
Inductive Exc (A : Type) : Type :=
| Ok (a : A)
| Raise (e : PyException).
Arguments Ok {A} a.
Arguments Raise {A} e.

Definition bind {A B : Type} (c : Exc A) (k : A -> Exc B) : Exc B :=
  match c with
  | Ok a => k a
  | Raise e => Raise e
  end.

(** [try: body / except Exception: handler]. *)
Definition try_except {A : Type} (body : Exc A) (handler : PyException -> Exc A) : Exc A :=
  match body with
  | Ok a => Ok a
  | Raise e => handler e
  end.

Declare Scope exc_scope.
Delimit Scope exc_scope with exc.
Notation "x <- c ;; k" := (bind c (fun x => k))
  (at level 61, c at next level, right associativity) : exc_scope.
Local Open Scope exc_scope.

(** How a call ends: it returns, an exception leaves it, it loops for ever,
    or the process is ended from inside a library (no exception to catch,
    nothing after it runs). *)
Inductive Outcome (A : Type) : Type :=
| Returns (a : A)
| Raises (e : PyException)
| Diverges
| Killed.
Arguments Returns {A} a.
Arguments Raises {A} e.
Arguments Diverges {A}.
Arguments Killed {A}.

(** [for x in xs: st = body x st], stopping at the first exception. *)
Fixpoint for_each {S : Type} (xs : list nat) (body : nat -> S -> Exc S) (st : S) : Exc S :=
  match xs with
  | [] => Ok st
  | x :: rest => st' <- body x st ;; for_each rest body st'
  end.

(** ** Configuration data (lines 8-59) *)

(** A coordinate is a (latitude, longitude) pair. *)
Definition Coord : Type := (Q * Q)%type.

(** [locations]: name -> coordinate, in insertion order. *)
Definition Locations : Type := list (string * Coord).

(** [fill_levels]: name -> percentage. *)
Definition FillLevels : Type := list (string * Z).

Record Truck : Type := mkTruck {
  locations : Locations;
  fill_levels : FillLevels;
  color : string
}.

Definition markham_locations : Locations :=
  [ ("Depot (Markham)", (43.8561, -79.3370)%Q);
    ("Markham Civic Centre", (43.8563, -79.3370)%Q);
    ("Markville Mall", (43.8643, -79.3021)%Q);
    ("Milne Dam Park", (43.8576, -79.2813)%Q);
    ("Markham Village Library", (43.9025, -79.2590)%Q);
    ("Unionville GO Station", (43.8565, -79.3164)%Q);
    ("Angus Glen Community Centre", (43.9191, -79.3190)%Q);
    ("Cornell Community Centre", (43.8952, -79.2443)%Q) ].

Definition markham_bin_fill_levels : FillLevels :=
  [ ("Markham Civic Centre", 45);
    ("Markville Mall", 70);
    ("Milne Dam Park", 55);
    ("Markham Village Library", 30);
    ("Unionville GO Station", 25);
    ("Angus Glen Community Centre", 60);
    ("Cornell Community Centre", 50) ].

Definition richmondhill_locations : Locations :=
  [ ("Depot (Richmond Hill)", (43.8811, -79.4370)%Q);
    ("Hillcrest Mall", (43.8783, -79.4402)%Q);
    ("Richmond Green Sports Centre", (43.9021, -79.4121)%Q);
    ("David Hamilton Park", (43.8876, -79.4213)%Q);
    ("Richmond Hill Centre", (43.9165, -79.4355)%Q);
    ("Elgin West Community Centre", (43.8819, -79.4525)%Q);
    ("Langstaff Community Centre", (43.8565, -79.4700)%Q) ].

Definition richmondhill_bin_fill_levels : FillLevels :=
  [ ("Hillcrest Mall", 50);
    ("Richmond Green Sports Centre", 65);
    ("David Hamilton Park", 35);
    ("Richmond Hill Centre", 75);
    ("Elgin West Community Centre", 55);
    ("Langstaff Community Centre", 60) ].

(** [trucks]: truck name -> truck data, in insertion order. *)
Definition trucks : list (string * Truck) :=
  [ ("Truck 1 (Markham)", mkTruck markham_locations markham_bin_fill_levels "blue");
    ("Truck 2 (Richmond Hill)", mkTruck richmondhill_locations richmondhill_bin_fill_levels "red") ].

Definition fuel_price_per_liter : Q := 1.52.
Definition fuel_consumption_per_km : Q := 0.3.
Definition labor_hours_saved_per_km : Q := 0.05.
Definition FILL_THRESHOLD : Z := 40.

(** ** Stop filtering (line 106) *)

(** [d.get(name, default)]. *)
Fixpoint dict_get (d : FillLevels) (name : string) (default : Z) : Z :=
  match d with
  | [] => default
  | (k, v) :: rest => if String.eqb k name then v else dict_get rest name default
  end.

(** The condition of the comprehension:
    [name == "Depot" or fill_levels.get(name, 0) >= threshold]. *)
Definition keeps (threshold : Z) (fill : FillLevels) (name : string) : bool :=
  String.eqb name "Depot" || (threshold <=? dict_get fill name 0).

(** [{name: coord for name, coord in locations.items() if ...}]: the keys of
    [locations] are distinct, so each kept item is a new key of the result
    and the result lists the kept items in the order of [locations]. *)
Definition filtered_bins (threshold : Z) (locs : Locations) (fill : FillLevels) : Locations :=
  filter (fun item => keeps threshold fill (fst item)) locs.

(** [list(filtered_bins.values())]. *)
Definition dict_values (d : Locations) : list Coord := map snd d.

(** [list(d.keys())]. *)
Definition dict_keys {V : Type} (d : list (string * V)) : list string := map fst d.

(** ** Distance matrix (lines 61-79) *)

(** A matrix entry as Python has it: an int (the [0] of the initialisation,
    the fallback) or a float (a provider distance in kilometers,
    [float('inf')]). *)
Inductive Cell : Type :=
| PyInt (z : Z)
| PyFloat (f : float).

(** [float('inf')]. *)
Definition PyInf : Cell := PyFloat infinity.

Definition Matrix : Type := list (list Cell).

(** The two [lon,lat] pairs of the requested OSRM url (the text around them
    is constant). *)
Record Url : Type := mkUrl {
  coord1 : Q * Q;
  coord2 : Q * Q
}.

(** What the try block reads off a decoded response: the distance in meters
    of the first route, or that ["routes"] is missing or empty.  The
    distance is the float [json] gives for the number ([inf] for a number
    beyond the float range, NaN for [NaN]); where [json] gives an int, which
    it does for a number written without fraction or exponent, it is the
    float of that int: up to 2^53 in magnitude, where the conversion is
    exact, [int / 1000] is the float quotient computed here. *)
Inductive Response : Type :=
| WithRoutes (distance : float)
| NoRoutes.

(** The service as seen by one matrix construction: the outcome of the
    lookup made for cell (i, j).  [Raise] stands for any exception raised in
    the try block before the cell is assigned: while fetching, decoding or
    reading the response, or dividing a distance that is no number. *)
Definition Provider : Type := nat -> nat -> Url -> Exc Response.

(** One lookup: the cell it was made for and its url. *)
Record Request : Type := mkRequest {
  req_i : nat;
  req_j : nat;
  req_url : Url
}.

(** [l[i]]. *)
Definition list_get {A : Type} (l : list A) (i : nat) : Exc A :=
  match nth_error l i with
  | Some a => Ok a
  | None => Raise IndexError
  end.

(** [l[i] = v]. *)
Fixpoint list_set {A : Type} (l : list A) (i : nat) (v : A) : Exc (list A) :=
  match l, i with
  | [], _ => Raise IndexError
  | _ :: rest, O => Ok (v :: rest)
  | a :: rest, S i' => rest' <- list_set rest i' v ;; Ok (a :: rest')
  end.

(** [m[i][j] = v]: the rows are distinct lists, so only row [i] changes. *)
Definition matrix_set (m : Matrix) (i j : nat) (v : Cell) : Exc Matrix :=
  row <- list_get m i ;;
  row' <- list_set row j v ;;
  list_set m i row'.

(** The matrix under construction and the lookups made so far. *)
Record MatrixState : Type := mkMatrixState {
  distance_matrix : Matrix;
  requests : list Request
}.

(** [abs(i - j) * 5], as a function of the index distance. *)
Definition fallback_estimate (index_distance : Z) : Z := index_distance * 5.

Definition index_distance (i j : nat) : Z := Z.abs (Z.of_nat i - Z.of_nat j).

(** The url for the pair of coordinates: each is written longitude first. *)
Definition make_url (ci cj : Coord) : Url :=
  mkUrl (snd ci, fst ci) (snd cj, fst cj).

(** The body of the inner loop for cell (i, j) (lines 67-78). *)
Definition visit_cell (coords : list Coord) (provider : Provider)
    (i j : nat) (st : MatrixState) : Exc MatrixState :=
  if Nat.eqb i j then Ok st
  else
    ci <- list_get coords i ;;
    cj <- list_get coords j ;;
    let url := make_url ci cj in
    let reqs := requests st ++ [mkRequest i j url] in
    try_except
      (response <- provider i j url ;;
       match response with
       | WithRoutes distance =>
           m <- matrix_set (distance_matrix st) i j (PyFloat (distance / 1000)%float) ;;
           Ok (mkMatrixState m reqs)
       | NoRoutes =>
           m <- matrix_set (distance_matrix st) i j PyInf ;;
           Ok (mkMatrixState m reqs)
       end)
      (fun _ =>
         m <- matrix_set (distance_matrix st) i j (PyInt (fallback_estimate (index_distance i j))) ;;
         Ok (mkMatrixState m reqs)).

(** [get_distance_matrix(coords)]: the returned matrix, with the lookups it
    made.  [Raise] is an exception leaving the function. *)
Definition get_distance_matrix (coords : list Coord) (provider : Provider) : Exc MatrixState :=
  let num_locations := List.length coords in
  let zeros := repeat (repeat (PyInt 0) num_locations) num_locations in
  for_each (seq 0 num_locations)
    (fun i st => for_each (seq 0 num_locations) (fun j st' => visit_cell coords provider i j st') st)
    (mkMatrixState zeros []).

(** ** Routing model (lines 81-93) *)

(** [pywrapcp.RoutingIndexManager(num_nodes, num_vehicles, depot)]. *)
Record RoutingIndexManager : Type := mkManager {
  num_nodes : nat;
  num_vehicles : nat;
  depot : nat
}.

(** For the manager the program builds (one vehicle, depot 0) OR-tools gives
    node [k] the index [k]; the route's end has the extra index [num_nodes],
    which is the depot again. *)
Definition IndexToNode (manager : RoutingIndexManager) (index : nat) : nat :=
  if Nat.ltb index (num_nodes manager) then index else depot manager.

(** [cell * 1000]: an int product, or the float product with 1000.0. *)
Definition times_1000 (c : Cell) : Cell :=
  match c with
  | PyInt z => PyInt (z * 1000)
  | PyFloat f => PyFloat (f * 1000)%float
  end.

(** The integer part of a finite float [(-1)^s * m * 2^e], toward zero. *)
Definition truncate (f : float) : Z :=
  match Prim2SF f with
  | S754_finite s m e =>
      let magnitude := Z.shiftl (Zpos m) e in
      if s then - magnitude else magnitude
  | _ => 0
  end.

(** [int(x)]: an int is itself; a float is truncated toward zero, where
    [int(float('nan'))] raises ValueError and [int] of an infinity raises
    OverflowError. *)
Definition py_int (c : Cell) : Exc Z :=
  match c with
  | PyInt z => Ok z
  | PyFloat f =>
      if is_nan f then Raise ValueError
      else if is_infinity f then Raise OverflowError
      else Ok (truncate f)
  end.

(** The arc-cost callback (lines 86-89), closed over the manager and matrix. *)
Definition distance_callback (manager : RoutingIndexManager) (m : Matrix)
    (from_index to_index : nat) : Exc Z :=
  let from_node := IndexToNode manager from_index in
  let to_node := IndexToNode manager to_index in
  row <- list_get m from_node ;;
  c <- list_get row to_node ;;
  py_int (times_1000 c).

(** [pywrapcp.RoutingModel(manager)] with its arc-cost evaluator. *)
Record RoutingModel : Type := mkRouting {
  routing_manager : RoutingIndexManager;
  arc_cost_evaluator : nat -> nat -> Exc Z
}.

(** [create_routing_model(distance_matrix)].  With no location,
    [pywrapcp.RoutingIndexManager(0, 1, 0)] asks for a depot that is no node
    and OR-tools ends the process there (line 83). *)
Definition create_routing_model (m : Matrix) : Outcome (RoutingIndexManager * RoutingModel) :=
  let num_locations := List.length m in
  match num_locations with
  | O => Killed
  | S _ =>
      let manager := mkManager num_locations 1 0 in
      let routing := mkRouting manager (distance_callback manager m) in
      Returns (manager, routing)
  end.

(** [routing.Start(0)]: the index of the depot. *)
Definition Start (routing : RoutingModel) : nat := depot (routing_manager routing).

(** [routing.IsEnd(index)]: the indices from [Size()] on are route ends. *)
Definition IsEnd (routing : RoutingModel) (index : nat) : bool :=
  Nat.leb (num_nodes (routing_manager routing)) index.

(** ** The search (lines 112-119) *)

Inductive FirstSolutionStrategy : Type := PATH_CHEAPEST_ARC.
Inductive LocalSearchMetaheuristic : Type := GUIDED_LOCAL_SEARCH.

Record SearchParameters : Type := mkSearchParameters {
  first_solution_strategy : FirstSolutionStrategy;
  local_search_metaheuristic : LocalSearchMetaheuristic;
  time_limit_seconds : Z
}.

Definition search_parameters : SearchParameters :=
  mkSearchParameters PATH_CHEAPEST_ARC GUIDED_LOCAL_SEARCH 30.

(** An OR-tools assignment, read through [solution.Value(routing.NextVar(index))]. *)
Record Assignment : Type := mkAssignment {
  Value_NextVar : nat -> nat
}.

(** [routing.SolveWithParameters(search_parameters)] for the truck at
    position [idx] of the fleet: an assignment, or [None] when the search
    finds no solution. *)
Definition Solver : Type := nat -> RoutingModel -> SearchParameters -> option Assignment.

(** ** Route extraction (lines 121-127) *)

(** The while loop, from [index] with [route] so far.  [fuel] bounds the
    number of loop tests; [None] is a loop that has not reached an end index
    within [fuel] tests. *)
Fixpoint extract_route (fuel : nat) (manager : RoutingIndexManager) (routing : RoutingModel)
    (solution : Assignment) (location_coords : list Coord)
    (index : nat) (route : list Coord) : option (list Coord) :=
  match fuel with
  | O => None
  | S fuel' =>
      if IsEnd routing index then Some route
      else
        let node_index := IndexToNode manager index in
        let route' :=
          if Nat.ltb node_index (List.length location_coords) then
            match nth_error location_coords node_index with
            | Some c => route ++ [c]
            | None => route
            end
          else route in
        extract_route fuel' manager routing solution location_coords
          (Value_NextVar solution index) route'
  end.

(** Every non-end index is below [Size()], so a walk of [Size() + 1] tests
    that meets no end index has met some index twice and goes on for ever:
    with this fuel, [None] is exactly the loop that does not terminate. *)
Definition route_fuel (manager : RoutingIndexManager) : nat := S (num_nodes manager).

(** ** Map and report (lines 96-97, 129-148) *)

Record PolyLine : Type := mkPolyLine {
  pl_locations : list Coord;
  pl_color : string;
  pl_weight : Z;
  pl_opacity : Q
}.

(** The folium map: its constructor arguments, the layers added to it and
    the elements added to its html root. *)
Record FoliumMap : Type := mkMap {
  map_location : Coord;
  zoom_start : Z;
  layers : list PolyLine;
  html_children : list string
}.

(** What the run does to the world around it. *)
Inductive Effect : Type :=
| HttpGet (r : Request)
| SaveMap (filename : string) (m : FoliumMap)
| Print (message : string).

Definition nl : string := String "010"%char EmptyString.
Definition dq : string := String "034"%char EmptyString.
Definition cat (parts : list string) : string := String.concat "" parts.

(** The f-string of lines 132-144. *)
Definition summary_box (truck_name box_position : string) : string :=
  cat [ nl;
        "        <div style="; dq; "position: fixed; "; box_position;
        " width: 300px; height: auto; "; nl;
        "        background-color: white; padding: 10px; z-index: 1000; border-radius: 5px; font-size: 14px;"; dq; ">"; nl;
        "        <b>"; truck_name; " Summary:</b><br>"; nl;
        "        🚛 Initial Distance: 50 km<br>"; nl;
        "        🛣 Optimized Distance: 35 km<br>"; nl;
        "        📉 Distance Saved: 15 km<br>"; nl;
        "        ⛽ Fuel Cost Before: CAD$22.80<br>"; nl;
        "        ⛽ Fuel Cost After: CAD$15.96<br>"; nl;
        "        💰 Savings: CAD$6.84<br>"; nl;
        "        ⌛ Labor Hours Saved: 0.75 hrs"; nl;
        "        </div>"; nl;
        "        " ].

Definition box_position_of (idx : nat) : string :=
  if Nat.eqb idx 0 then "top: 10px; right: 10px;" else "bottom: 10px; right: 10px;".

(** ** The run (lines 95-148) *)

(** The variables the loop over the trucks updates, and the effects so far. *)
Record RunState : Type := mkRunState {
  route_map : FoliumMap;
  summary_boxes : string;
  trace : list Effect
}.

(** One iteration of the loop over [trucks.items()] (lines 100-144). *)
Definition truck_iteration (provider : nat -> Provider) (solver : Solver)
    (idx : nat) (truck_name : string) (truck_data : Truck) (st : RunState) : Outcome RunState :=
  let truck_color := color truck_data in
  let box_position := box_position_of idx in
  let location_coords :=
    dict_values (filtered_bins FILL_THRESHOLD (locations truck_data) (fill_levels truck_data)) in
  match get_distance_matrix location_coords (provider idx) with
  | Raise e => Raises e
  | Ok ms =>
      let st1 := mkRunState (route_map st) (summary_boxes st)
                   (trace st ++ map HttpGet (requests ms)) in
      match create_routing_model (distance_matrix ms) with
      | Returns (manager, routing) =>
          match solver idx routing search_parameters with
          | None => Returns st1
          | Some solution =>
              match extract_route (route_fuel manager) manager routing solution
                      location_coords (Start routing) [] with
              | None => Diverges
              | Some route =>
                  let m := route_map st1 in
                  let m' :=
                    match route with
                    | [] => m
                    | _ :: _ =>
                        mkMap (map_location m) (zoom_start m)
                          (layers m ++ [mkPolyLine route truck_color 5 0.7])
                          (html_children m)
                    end in
                  Returns (mkRunState m'
                             (String.append (summary_boxes st1)
                                (summary_box truck_name box_position))
                             (trace st1))
              end
          end
      | Raises e => Raises e
      | Diverges => Diverges
      | Killed => Killed
      end
  end.

(** [for idx, (truck_name, truck_data) in enumerate(items, idx)]. *)
Fixpoint trucks_loop (provider : nat -> Provider) (solver : Solver)
    (idx : nat) (items : list (string * Truck)) (st : RunState) : Outcome RunState :=
  match items with
  | [] => Returns st
  | (truck_name, truck_data) :: rest =>
      match truck_iteration provider solver idx truck_name truck_data st with
      | Returns st' => trucks_loop provider solver (S idx) rest st'
      | Raises e => Raises e
      | Diverges => Diverges
      | Killed => Killed
      end
  end.

(** What a finished run leaves: the value it returns (Python's [None]) and
    its effects in order. *)
Record RunResult : Type := mkRunResult {
  returned : unit;
  effects : list Effect
}.

Definition initial_state : RunState :=
  mkRunState (mkMap (43.89, -79.39)%Q 12 [] []) "" [].

(** [optimize_routes()], with the global [trucks] it reads as [fleet]. *)
Definition optimize_routes (fleet : list (string * Truck))
    (provider : nat -> Provider) (solver : Solver) : Outcome RunResult :=
  match trucks_loop provider solver 0 fleet initial_state with
  | Returns st =>
      let m := route_map st in
      let m' := mkMap (map_location m) (zoom_start m) (layers m)
                  (html_children m ++ [summary_boxes st]) in
      Returns (mkRunResult tt
                 (trace st ++ [SaveMap "optimized_route.html" m';
                               Print "📍 Map saved as 'optimized_route.html'."]))
  | Raises e => Raises e
  | Diverges => Diverges
  | Killed => Killed
  end.

(** ** Notions used to state the properties *)

(** [a] is [b] with some items left out, the others in the same order. *)
Inductive subsequence {A : Type} : list A -> list A -> Prop :=
| subseq_nil : subsequence [] []
| subseq_skip : forall x l1 l2, subsequence l1 l2 -> subsequence l1 (x :: l2)
| subseq_keep : forall x l1 l2, subsequence l1 l2 -> subsequence (x :: l1) (x :: l2).

(** [m[i][j]], where it exists. *)
Definition matrix_get (m : Matrix) (i j : nat) : option Cell :=
  match nth_error m i with
  | Some row => nth_error row j
  | None => None
  end.

(** An entry that is not negative: [entry < 0] is false. *)
Definition cell_nonneg (c : Cell) : Prop :=
  match c with
  | PyInt z => 0 <= z
  | PyFloat f => (f <? 0)%float = false
  end.

(** An [n] by [n] matrix. *)
Definition square (n : nat) (m : Matrix) : Prop :=
  List.length m = n /\ Forall (fun row => List.length row = n) m.

(** What a lookup's outcome leaves in its cell: the three branches of lines
    73-78. *)
Definition looked_up (outcome : Exc Response) (i j : nat) : Cell :=
  match outcome with
  | Ok (WithRoutes distance) => PyFloat (distance / 1000)%float
  | Ok NoRoutes => PyInf
  | Raise _ => PyInt (fallback_estimate (index_distance i j))
  end.

(** The url requested for cell (i, j), when both coordinates exist. *)
Definition url_of (coords : list Coord) (i j : nat) : option Url :=
  match nth_error coords i, nth_error coords j with
  | Some ci, Some cj => Some (make_url ci cj)
  | _, _ => None
  end.

(** The entry line 63 or lines 73-78 give cell (i, j). *)
Definition expected_cell (coords : list Coord) (provider : Provider) (i j : nat) : Cell :=
  if Nat.eqb i j then PyInt 0
  else
    match url_of coords i j with
    | Some url => looked_up (provider i j url) i j
    | None => PyInt 0
    end.

(** A lookup for a cell off the diagonal. *)
Definition off_diagonal (r : Request) : Prop := req_i r <> req_j r.

(** Invariant of the inner loop over [j], for row [i], after [k] columns. *)
Definition inner_invariant (coords : list Coord) (provider : Provider)
    (st0 : MatrixState) (i k : nat) (st : MatrixState) : Prop :=
  square (List.length coords) (distance_matrix st) /\
  Forall off_diagonal (requests st) /\
  (forall a b,
      matrix_get (distance_matrix st) a b =
      if (Nat.eqb a i && Nat.ltb b k && negb (Nat.eqb i b))%bool
      then Some (expected_cell coords provider i b)
      else matrix_get (distance_matrix st0) a b).

(** Invariant of the outer loop over [i], after [k] rows. *)
Definition outer_invariant (coords : list Coord) (provider : Provider)
    (k : nat) (st : MatrixState) : Prop :=
  square (List.length coords) (distance_matrix st) /\
  Forall off_diagonal (requests st) /\
  (forall a b, (a < List.length coords)%nat -> (b < List.length coords)%nat ->
      matrix_get (distance_matrix st) a b =
      Some (if Nat.ltb a k then expected_cell coords provider a b else PyInt 0)).

(** The cost of driving through the indices [tour] in order, as the sum of
    the arc-cost evaluator over its consecutive pairs. *)
Fixpoint tour_cost (routing : RoutingModel) (tour : list nat) : Exc Z :=
  match tour with
  | a :: ((b :: _) as rest) =>
      c <- arc_cost_evaluator routing a b ;;
      r <- tour_cost routing rest ;;
      Ok (c + r)
  | _ => Ok 0
  end.

(** A route of an assignment, for a model of [size] nodes: from [cur] the
    assignment passes the indices [rest], all of them nodes, and then an
    end index. *)
Fixpoint follows (solution : Assignment) (size cur : nat) (rest : list nat) : Prop :=
  (cur < size)%nat /\
  match rest with
  | [] => (size <= Value_NextVar solution cur)%nat
  | x :: rest' => Value_NextVar solution cur = x /\ follows solution size x rest'
  end.

(** Following [NextVar] from [index] leads to an end index within [fuel]
    loop tests. *)
Fixpoint reaches_end (fuel : nat) (routing : RoutingModel) (solution : Assignment)
    (index : nat) : bool :=
  match fuel with
  | O => false
  | S fuel' =>
      IsEnd routing index || reaches_end fuel' routing solution (Value_NextVar solution index)
  end.

(** The coordinates of the nodes [nodes], in order. *)
Definition route_of (coords : list Coord) (nodes : list nat) : list Coord :=
  map (fun k => nth k coords (0, 0)%Q) nodes.

(** What the program relies on from the search: an assignment it returns
    leads from the route's start to its end. *)
Definition solver_sound (solver : Solver) : Prop :=
  forall idx routing solution,
    solver idx routing search_parameters = Some solution ->
    reaches_end (route_fuel (routing_manager routing)) routing solution (Start routing) = true.

(** The routing model the run builds for a truck (lines 106-110). *)
Definition truck_model (provider : nat -> Provider) (idx : nat) (truck_data : Truck)
    : Outcome RoutingModel :=
  match get_distance_matrix
          (dict_values (filtered_bins FILL_THRESHOLD (locations truck_data) (fill_levels truck_data)))
          (provider idx) with
  | Raise e => Raises e
  | Ok ms =>
      match create_routing_model (distance_matrix ms) with
      | Returns (_, routing) => Returns routing
      | Raises e => Raises e
      | Diverges => Diverges
      | Killed => Killed
      end
  end.

(** Whether the search finds a solution for a truck. *)
Definition truck_solved (provider : nat -> Provider) (solver : Solver)
    (idx : nat) (truck_data : Truck) : bool :=
  match truck_model provider idx truck_data with
  | Returns routing =>
      match solver idx routing search_parameters with
      | Some _ => true
      | None => false
      end
  | _ => false
  end.

(** [boxes] followed by the summary boxes of the solved trucks of [fleet],
    the first of which is at position [idx] of the whole fleet. *)
Fixpoint expected_boxes (provider : nat -> Provider) (solver : Solver)
    (idx : nat) (fleet : list (string * Truck)) (boxes : string) : string :=
  match fleet with
  | [] => boxes
  | (truck_name, truck_data) :: rest =>
      expected_boxes provider solver (S idx) rest
        (if truck_solved provider solver idx truck_data
         then String.append boxes (summary_box truck_name (box_position_of idx))
         else boxes)
  end.

(** The files a run wrote, each with the map written to it, and the
    messages it printed. *)
Definition saved_maps (o : Outcome RunResult) : list (string * FoliumMap) :=
  match o with
  | Returns res =>
      flat_map (fun e => match e with
                         | SaveMap filename m => [(filename, m)]
                         | _ => []
                         end) (effects res)
  | _ => []
  end.

(** The html elements of the maps a run saved. *)
Definition saved_html (o : Outcome RunResult) : list (list string) :=
  map (fun fm => html_children (snd fm)) (saved_maps o).

Definition printed (o : Outcome RunResult) : list string :=
  match o with
  | Returns res =>
      flat_map (fun e => match e with
                         | Print message => [message]
                         | _ => []
                         end) (effects res)
  | _ => []
  end.


(** [s] occurs in [t]. *)
Fixpoint occurs_in (s t : string) : bool :=
  String.prefix s t ||
  match t with
  | EmptyString => false
  | String _ t' => occurs_in s t'
  end.

(** The text [s] occurs somewhere in the effect [e]. *)
Definition effect_mentions (s : string) (e : Effect) : bool :=
  match e with
  | HttpGet _ => false
  | SaveMap filename m =>
      occurs_in s filename
      || existsb (occurs_in s) (html_children m)
      || existsb (fun pl => occurs_in s (pl_color pl)) (layers m)
  | Print message => occurs_in s message
  end.

(** ** Sample inputs *)

(** Three coordinates and a service that answers the lookups of row 0 with
    no route, fails on those of column 0 and otherwise reports 2500 m. *)
Definition sample_coords : list Coord := [(1, 2)%Q; (3, 4)%Q; (5, 6)%Q].

Definition sample_provider : Provider :=
  fun i j _ =>
    if Nat.eqb i 0 then Ok NoRoutes
    else if Nat.eqb j 0 then Raise RequestException
    else Ok (WithRoutes 2500%float).

(** Two coordinates between which the service finds no route. *)
Definition two_coords : list Coord := [(43.8563, -79.3370)%Q; (43.8643, -79.3021)%Q].

Definition no_route_provider : Provider := fun _ _ _ => Ok NoRoutes.

(** The matrix of [two_coords] when every lookup fails. *)
Definition two_stop_matrix : Matrix := [ [PyInt 0; PyInt 5]; [PyInt 5; PyInt 0] ].

(** The assignment that goes from each index to the next one:
    0 -> 1 -> ... -> Size(), the route's end. *)
Definition successor_assignment : Assignment := mkAssignment S.

(** A service that fails on every lookup, one that answers each lookup with
    5000 m per step of index distance (the distance the fallback would
    estimate), and one that puts every pair 1000 km apart. *)
Definition always_raising : nat -> Provider :=
  fun _ _ _ _ => Raise RequestException.

Definition index_provider : nat -> Provider :=
  fun _ i j _ => Ok (WithRoutes (of_uint63 (Uint63.of_Z (5000 * index_distance i j)))).

Definition distant_provider : nat -> Provider :=
  fun _ _ _ _ => Ok (WithRoutes 1000000%float).

(** A search that solves every truck, and one that finds no solution for
    the first truck of the fleet. *)
Definition solve_all : Solver :=
  fun _ _ _ => Some successor_assignment.

Definition solve_all_but_first : Solver :=
  fun idx _ _ => if Nat.eqb idx 0 then None else Some successor_assignment.

(** The first truck of the program's fleet. *)
Definition markham_truck : Truck :=
  mkTruck markham_locations markham_bin_fill_levels "blue".

(** The two summary boxes of the program's fleet, as the run writes them. *)
Definition fleet_boxes : string :=
  String.append (summary_box "Truck 1 (Markham)" "top: 10px; right: 10px;")
                (summary_box "Truck 2 (Richmond Hill)" "bottom: 10px; right: 10px;").

(** The cost, in the callback's unit (meters), of the route the successor
    assignment gives the Markham truck: its five kept stops in order and
    back to node 0. *)
Definition markham_route_cost (provider : nat -> Provider) : Outcome Z :=
  match truck_model provider 0 markham_truck with
  | Returns routing =>
      match tour_cost routing [0; 1; 2; 3; 4; 5]%nat with
      | Ok cost => Returns cost
      | Raise e => Raises e
      end
  | Raises e => Raises e
  | Diverges => Diverges
  | Killed => Killed
  end.

(** ** Notions for the further properties *)

(** The lookup the inner loop makes at cell (i, j): none on the diagonal. *)
Definition cell_request (coords : list Coord) (i j : nat) : list Request :=
  if Nat.eqb i j then []
  else
    match url_of coords i j with
    | Some url => [mkRequest i j url]
    | None => []
    end.

(** The lookups of row [i], and of the whole matrix, in loop order. *)
Definition row_requests (coords : list Coord) (i : nat) : list Request :=
  flat_map (cell_request coords i) (seq 0 (List.length coords)).

Definition all_requests (coords : list Coord) : list Request :=
  flat_map (row_requests coords) (seq 0 (List.length coords)).

(** The stops of a truck that the run's filter keeps, as coordinates. *)
Definition kept_coords (truck_data : Truck) : list Coord :=
  dict_values (filtered_bins FILL_THRESHOLD (locations truck_data) (fill_levels truck_data)).

(** A line as the run draws it for [truck_data]. *)
Definition line_of_truck (truck_data : Truck) (pl : PolyLine) : Prop :=
  pl_color pl = color truck_data /\
  pl_weight pl = 5 /\
  pl_opacity pl = 0.7%Q /\
  pl_locations pl <> [] /\
  incl (pl_locations pl) (kept_coords truck_data).

(** The lookups among the effects of a run, in order. *)
Definition lookups (o : Outcome RunResult) : list Request :=
  match o with
  | Returns res =>
      flat_map (fun e => match e with
                         | HttpGet r => [r]
                         | _ => []
                         end) (effects res)
  | _ => []
  end.

(** A search that finds no solution for any truck. *)
Definition solve_none : Solver := fun _ _ _ => None.

(** The manager and the model [create_routing_model] returns for a matrix
    that has a row. *)
Definition index_manager (m : Matrix) : RoutingIndexManager :=
  mkManager (List.length m) 1 0.

Definition routing_model (m : Matrix) : RoutingModel :=
  mkRouting (index_manager m) (distance_callback (index_manager m) m).

(** Every truck of the fleet has a stop that the run's filter keeps. *)
Definition every_truck_keeps_a_stop (fleet : list (string * Truck)) : Prop :=
  Forall (fun t => kept_coords (snd t) <> []) fleet.

(** The lookups of a run: those of each truck's kept stops, in fleet order. *)
Definition fleet_requests (fleet : list (string * Truck)) : list Request :=
  flat_map (fun t => all_requests (kept_coords (snd t))) fleet.

(** The route the run extracts for a truck: [None] when the search finds no
    solution for it (or nothing comes out of the steps before). *)
Definition truck_route (provider : nat -> Provider) (solver : Solver)
    (idx : nat) (truck_data : Truck) : option (list Coord) :=
  match get_distance_matrix (kept_coords truck_data) (provider idx) with
  | Ok ms =>
      match create_routing_model (distance_matrix ms) with
      | Returns (manager, routing) =>
          match solver idx routing search_parameters with
          | Some solution =>
              extract_route (route_fuel manager) manager routing solution
                (kept_coords truck_data) (Start routing) []
          | None => None
          end
      | _ => None
      end
  | Raise _ => None
  end.

(** The line drawn for a truck: one for a route that is not empty. *)
Definition truck_lines (provider : nat -> Provider) (solver : Solver)
    (idx : nat) (truck_data : Truck) : list PolyLine :=
  match truck_route provider solver idx truck_data with
  | Some (c :: route) => [mkPolyLine (c :: route) (color truck_data) 5 0.7]
  | _ => []
  end.

(** The lines of the trucks of [fleet], the first of which is at position
    [idx] of the whole fleet. *)
Fixpoint expected_lines (provider : nat -> Provider) (solver : Solver)
    (idx : nat) (fleet : list (string * Truck)) : list PolyLine :=
  match fleet with
  | [] => []
  | (_, truck_data) :: rest =>
      truck_lines provider solver idx truck_data ++
      expected_lines provider solver (S idx) rest
  end.

(** A fleet of one truck none of whose bins reaches the threshold. *)
Definition idle_truck : Truck :=
  mkTruck [("Depot (Idle)", (43.8561, -79.3370)%Q); ("Quiet Park", (43.8563, -79.3370)%Q)]
          [("Quiet Park", 10)] "green".

Definition idle_fleet : list (string * Truck) := [("Truck 3 (Idle)", idle_truck)].

(** The scenario of the specification: threshold 40 and fill levels
    A: 45, B: 30, C: 60. *)
Definition scenario_locations : Locations :=
  [ ("Depot", (43.85, -79.33)%Q); ("A", (43.86, -79.30)%Q);
    ("B", (43.87, -79.28)%Q); ("C", (43.90, -79.25)%Q) ].

Definition scenario_fill_levels : FillLevels := [ ("A", 45); ("B", 30); ("C", 60) ].

(** * Properties *)

(** ** Stop filtering *)

Section StopFilter.

Variable threshold : Z.
Variable locs : Locations.
Variable fill : FillLevels.

Lemma filtered_bins_subsequence :
  subsequence (filtered_bins threshold locs fill) locs.
Proof.
  unfold filtered_bins.
  induction locs as [|item rest IH]; simpl.
  - constructor.
  - destruct (keeps threshold fill (fst item)); now constructor.
Qed.

Lemma filtered_bins_In (name : string) (c : Coord) :
  In (name, c) (filtered_bins threshold locs fill) <->
  In (name, c) locs /\ keeps threshold fill name = true.
Proof.
  unfold filtered_bins. rewrite filter_In. reflexivity.
Qed.

(** A stop whose name is exactly "Depot" is always kept. *)
Lemma filtered_bins_keeps_Depot (c : Coord) :
  In ("Depot", c) locs -> In ("Depot", c) (filtered_bins threshold locs fill).
Proof.
  intros H. apply filtered_bins_In. split; [exact H | reflexivity].
Qed.

(** The result is a dictionary again: its keys are distinct when those of
    [locs] are. *)
Lemma filtered_bins_keys_NoDup :
  NoDup (dict_keys locs) -> NoDup (dict_keys (filtered_bins threshold locs fill)).
Proof.
  unfold dict_keys, filtered_bins.
  induction locs as [|item rest IH]; simpl; intros Hnd.
  - constructor.
  - inversion Hnd as [|? ? Hnotin Hrest]; subst.
    destruct (keeps threshold fill (fst item)); simpl; auto.
    constructor; auto.
    intros Hin. apply Hnotin.
    apply in_map_iff in Hin. destruct Hin as [x [Hx Hin]].
    apply filter_In in Hin. apply in_map_iff. exists x. tauto.
Qed.

(** A stop under any other name, with no fill level of its own, is dropped
    by every positive threshold. *)
Lemma filtered_bins_drops_unnamed_depot (name : string) (c : Coord) :
  name <> "Depot" -> dict_get fill name 0 = 0 -> 0 < threshold ->
  ~ In (name, c) (filtered_bins threshold locs fill).
Proof.
  intros Hname Hfill Hpos Hin.
  apply filtered_bins_In in Hin. destruct Hin as [_ Hk].
  unfold keeps in Hk. rewrite Hfill in Hk.
  apply orb_true_iff in Hk. destruct Hk as [Hk|Hk].
  - apply String.eqb_eq in Hk. contradiction.
  - apply Z.leb_le in Hk. lia.
Qed.

End StopFilter.

Lemma dict_get_absent (d : FillLevels) (name : string) (default : Z) :
  ~ In name (dict_keys d) -> dict_get d name default = default.
Proof.
  induction d as [|[k v] rest IH]; simpl; intros Hn; [reflexivity|].
  destruct (String.eqb_spec k name) as [->|Hne].
  - exfalso. apply Hn. now left.
  - apply IH. intros Hin. apply Hn. now right.
Qed.

Lemma dict_get_present (d : FillLevels) (name : string) (v default : Z) :
  NoDup (dict_keys d) -> In (name, v) d -> dict_get d name default = v.
Proof.
  induction d as [|[k w] rest IH]; simpl; intros Hnd Hin; [contradiction|].
  inversion Hnd as [|? ? Hnotin Hrest]; subst.
  destruct Hin as [Heq|Hin].
  - inversion Heq; subst. now rewrite String.eqb_refl.
  - destruct (String.eqb_spec k name) as [->|_].
    + exfalso. apply Hnotin. unfold dict_keys.
      change name with (fst (name, v)). now apply in_map.
    + now apply IH.
Qed.

(** Whether a stop that the filter does not take for the depot is kept is
    decided by the level the dictionary records for its name. *)
Lemma filtered_bins_by_level (threshold : Z) (locs : Locations) (fill : FillLevels)
    (name : string) (c : Coord) (level : Z) :
  NoDup (dict_keys fill) -> In (name, level) fill -> name <> "Depot" ->
  (In (name, c) (filtered_bins threshold locs fill) <->
   In (name, c) locs /\ threshold <= level).
Proof.
  intros Hnd Hlevel Hname. rewrite filtered_bins_In. unfold keeps.
  rewrite (dict_get_present fill name level 0 Hnd Hlevel).
  destruct (String.eqb_spec name "Depot") as [?|_]; [contradiction|].
  simpl. now rewrite Z.leb_le.
Qed.

(** The same for a stop that the dictionary does not mention: its level
    counts as 0. *)
Lemma filtered_bins_without_level (threshold : Z) (locs : Locations) (fill : FillLevels)
    (name : string) (c : Coord) :
  ~ In name (dict_keys fill) -> name <> "Depot" ->
  (In (name, c) (filtered_bins threshold locs fill) <->
   In (name, c) locs /\ threshold <= 0).
Proof.
  intros Habs Hname. rewrite filtered_bins_In. unfold keeps.
  rewrite (dict_get_absent fill name 0 Habs).
  destruct (String.eqb_spec name "Depot") as [?|_]; [contradiction|].
  simpl. now rewrite Z.leb_le.
Qed.

(** C8.  For a fill-level dictionary (its keys are distinct): every stop of
    the filter's output that the filter does not take for the depot (its
    name is not "Depot") and that has an entry in the dictionary has a
    recorded level of at least the threshold; one without an entry is in the
    output only if the threshold is at most 0, its level counting as 0; a
    stop of the location set is kept exactly when its recorded level, or 0
    without entry, reaches the threshold; and the output lists its stops in
    the relative order in which the input lists them. *)
Theorem C8_filter_threshold_default_order
    (threshold : Z) (locs : Locations) (fill : FillLevels) :
  NoDup (dict_keys fill) ->
  (forall name c level,
      In (name, c) (filtered_bins threshold locs fill) ->
      name <> "Depot" -> In (name, level) fill ->
      threshold <= level) /\
  (forall name c,
      In (name, c) (filtered_bins threshold locs fill) ->
      name <> "Depot" -> ~ In name (dict_keys fill) ->
      threshold <= 0) /\
  (forall name c level,
      In (name, c) locs -> name <> "Depot" -> In (name, level) fill ->
      (In (name, c) (filtered_bins threshold locs fill) <-> threshold <= level)) /\
  (forall name c,
      In (name, c) locs -> name <> "Depot" -> ~ In name (dict_keys fill) ->
      (In (name, c) (filtered_bins threshold locs fill) <-> threshold <= 0)) /\
  subsequence (filtered_bins threshold locs fill) locs.
Proof.
  intros Hnd. split; [|split; [|split; [|split]]].
  - intros name c level Hin Hname Hlevel.
    now apply (filtered_bins_by_level threshold locs fill name c level Hnd Hlevel Hname) in Hin.
  - intros name c Hin Hname Habs.
    now apply (filtered_bins_without_level threshold locs fill name c Habs Hname) in Hin.
  - intros name c level Hloc Hname Hlevel.
    rewrite (filtered_bins_by_level threshold locs fill name c level Hnd Hlevel Hname). tauto.
  - intros name c Hloc Hname Habs.
    rewrite (filtered_bins_without_level threshold locs fill name c Habs Hname). tauto.
  - apply filtered_bins_subsequence.
Qed.

Lemma scenario_keys_NoDup : NoDup (dict_keys scenario_fill_levels).
Proof.
  unfold dict_keys. simpl.
  repeat (constructor; [simpl; intros H;
                        repeat (destruct H as [H|H]; [discriminate H|]); exact H|]).
  constructor.
Qed.

(** The scenario of the specification: Depot, A and C are kept, B is not. *)
Lemma C8_filter_scenario_witness :
  dict_keys (filtered_bins 40 scenario_locations scenario_fill_levels) = ["Depot"; "A"; "C"] /\
  ((forall name c level,
      In (name, c) (filtered_bins 40 scenario_locations scenario_fill_levels) ->
      name <> "Depot" -> In (name, level) scenario_fill_levels ->
      40 <= level) /\
   (forall name c,
      In (name, c) (filtered_bins 40 scenario_locations scenario_fill_levels) ->
      name <> "Depot" -> ~ In name (dict_keys scenario_fill_levels) ->
      40 <= 0) /\
   (forall name c level,
      In (name, c) scenario_locations -> name <> "Depot" ->
      In (name, level) scenario_fill_levels ->
      (In (name, c) (filtered_bins 40 scenario_locations scenario_fill_levels)
       <-> 40 <= level)) /\
   (forall name c,
      In (name, c) scenario_locations -> name <> "Depot" ->
      ~ In name (dict_keys scenario_fill_levels) ->
      (In (name, c) (filtered_bins 40 scenario_locations scenario_fill_levels) <-> 40 <= 0)) /\
   subsequence (filtered_bins 40 scenario_locations scenario_fill_levels) scenario_locations).
Proof.
  split; [reflexivity|].
  apply (C8_filter_threshold_default_order 40 scenario_locations scenario_fill_levels).
  exact scenario_keys_NoDup.
Defined.

(** C1.  On the program's own Markham data and threshold the filter drops
    the depot: "Depot (Markham)" is the first stop of the location set and
    has no fill level, its name is not the literal "Depot" the filter tests
    for, and the output starts at "Markham Civic Centre". *)
Theorem C1_depot_dropped_markham :
  hd_error (dict_keys markham_locations) = Some "Depot (Markham)" /\
  ~ In "Depot (Markham)" (dict_keys markham_bin_fill_levels) /\
  ~ In "Depot (Markham)"
       (dict_keys (filtered_bins FILL_THRESHOLD markham_locations markham_bin_fill_levels)) /\
  dict_keys (filtered_bins FILL_THRESHOLD markham_locations markham_bin_fill_levels) =
    [ "Markham Civic Centre"; "Markville Mall"; "Milne Dam Park";
      "Angus Glen Community Centre"; "Cornell Community Centre" ].
Proof.
  assert (Hkeys : dict_keys (filtered_bins FILL_THRESHOLD markham_locations markham_bin_fill_levels) =
    [ "Markham Civic Centre"; "Markville Mall"; "Milne Dam Park";
      "Angus Glen Community Centre"; "Cornell Community Centre" ]) by (vm_compute; reflexivity).
  split; [reflexivity|]. split; [|split; [|exact Hkeys]].
  - simpl. intros H. repeat (destruct H as [H|H]; [discriminate H|]). exact H.
  - rewrite Hkeys. simpl. intros H.
    repeat (destruct H as [H|H]; [discriminate H|]). exact H.
Qed.

(** X1.  No eligible stop is lost: a stop of the location set whose entry in
    the fill-level dictionary reaches the threshold is in the output, with
    its coordinate. *)
Theorem X1_eligible_stop_is_kept
    (threshold : Z) (locs : Locations) (fill : FillLevels)
    (name : string) (c : Coord) (level : Z) :
  NoDup (dict_keys fill) ->
  In (name, level) fill ->
  threshold <= level ->
  In (name, c) locs ->
  In (name, c) (filtered_bins threshold locs fill).
Proof.
  intros Hnd Hfill Hlevel Hloc.
  apply filtered_bins_In. split; [exact Hloc|].
  unfold keeps. rewrite (dict_get_present fill name level 0 Hnd Hfill).
  apply orb_true_iff. right. now apply Z.leb_le.
Qed.

Lemma X1_eligible_witness :
  In ("Markville Mall", (43.8643, -79.3021)%Q)
     (filtered_bins FILL_THRESHOLD markham_locations markham_bin_fill_levels).
Proof.
  apply (X1_eligible_stop_is_kept FILL_THRESHOLD markham_locations markham_bin_fill_levels
           "Markville Mall" (43.8643, -79.3021)%Q 70).
  - unfold dict_keys. simpl.
    repeat (constructor; [simpl; intros H;
                          repeat (destruct H as [H|H]; [discriminate H|]); exact H|]).
    constructor.
  - simpl. tauto.
  - unfold FILL_THRESHOLD. lia.
  - simpl. tauto.
Defined.

Lemma filter_filter_implied {A : Type} (f g : A -> bool) (l : list A) :
  (forall x, g x = true -> f x = true) ->
  filter g (filter f l) = filter g l.
Proof.
  intros Himp. induction l as [|x rest IH]; simpl; [reflexivity|].
  destruct (f x) eqn:Ef; simpl.
  - now rewrite IH.
  - destruct (g x) eqn:Eg; [|exact IH].
    apply Himp in Eg. congruence.
Qed.

(** X2.  Filtering is idempotent: filtering the output again, with the same
    fill levels and threshold, gives the output back. *)
Theorem X2_filter_idempotent (threshold : Z) (locs : Locations) (fill : FillLevels) :
  filtered_bins threshold (filtered_bins threshold locs fill) fill
  = filtered_bins threshold locs fill.
Proof.
  unfold filtered_bins. apply filter_filter_implied. auto.
Qed.

(** X3.  A higher threshold keeps fewer stops, in the same order: what the
    higher threshold keeps of the whole location set is what it keeps of the
    lower threshold's output, a subsequence of that output. *)
Theorem X3_filter_monotone_in_threshold
    (low high : Z) (locs : Locations) (fill : FillLevels) :
  low <= high ->
  filtered_bins high (filtered_bins low locs fill) fill = filtered_bins high locs fill /\
  subsequence (filtered_bins high locs fill) (filtered_bins low locs fill).
Proof.
  intros Hle.
  assert (Heq : filtered_bins high (filtered_bins low locs fill) fill
                = filtered_bins high locs fill).
  { unfold filtered_bins. apply filter_filter_implied.
    intros [name c]. unfold keeps. simpl.
    rewrite !orb_true_iff, !Z.leb_le. intros [H|H]; [now left | right; lia]. }
  split; [exact Heq|].
  rewrite <- Heq. apply filtered_bins_subsequence.
Qed.

Lemma X3_monotone_witness :
  filtered_bins 60 (filtered_bins FILL_THRESHOLD markham_locations markham_bin_fill_levels)
    markham_bin_fill_levels
  = filtered_bins 60 markham_locations markham_bin_fill_levels /\
  subsequence (filtered_bins 60 markham_locations markham_bin_fill_levels)
              (filtered_bins FILL_THRESHOLD markham_locations markham_bin_fill_levels).
Proof.
  apply (X3_filter_monotone_in_threshold FILL_THRESHOLD 60).
  unfold FILL_THRESHOLD. lia.
Defined.

(** ** Lists and matrices updated by index *)

Section ListSet.

Context {A : Type}.

Lemma list_set_ok (l : list A) (i : nat) (v : A) :
  (i < List.length l)%nat ->
  exists l', list_set l i v = Ok l' /\
             List.length l' = List.length l /\
             nth_error l' i = Some v /\
             (forall k, k <> i -> nth_error l' k = nth_error l k).
Proof.
  revert i. induction l as [|a rest IH]; intros i Hi; simpl in Hi; [lia|].
  destruct i as [|i'].
  - exists (v :: rest). simpl. repeat split; auto.
    intros [|k] Hk; [congruence | reflexivity].
  - destruct (IH i') as [rest' [Hset [Hlen [Hat Hother]]]]; [lia|].
    exists (a :: rest'). simpl. rewrite Hset. simpl. repeat split; auto.
    intros [|k] Hk; simpl; [reflexivity | apply Hother; congruence].
Qed.

Lemma list_set_Forall (P : A -> Prop) (l l' : list A) (i : nat) (v : A) :
  list_set l i v = Ok l' -> Forall P l -> P v -> Forall P l'.
Proof.
  revert i l'. induction l as [|a rest IH]; intros i l' Hset Hall Hv; simpl in Hset.
  - discriminate.
  - inversion Hall as [|? ? Ha Hrest]; subst.
    destruct i as [|i'].
    + inversion Hset; subst. now constructor.
    + destruct (list_set rest i' v) as [rest'|e] eqn:E; simpl in Hset; [|discriminate].
      inversion Hset; subst. constructor; eauto.
Qed.

Lemma list_get_ok (l : list A) (i : nat) :
  (i < List.length l)%nat -> exists a, list_get l i = Ok a /\ nth_error l i = Some a.
Proof.
  intros Hi. unfold list_get.
  destruct (nth_error l i) as [a|] eqn:E.
  - now exists a.
  - apply nth_error_None in E. lia.
Qed.

End ListSet.

Lemma square_row (n : nat) (m : Matrix) (i : nat) (row : list Cell) :
  square n m -> nth_error m i = Some row -> List.length row = n.
Proof.
  intros [_ Hrows] Hi. rewrite Forall_forall in Hrows.
  apply Hrows. eapply nth_error_In; eauto.
Qed.

Lemma square_get (n : nat) (m : Matrix) (i j : nat) :
  square n m -> (i < n)%nat -> (j < n)%nat -> exists c, matrix_get m i j = Some c.
Proof.
  intros Hsq Hi Hj. unfold matrix_get.
  destruct (nth_error m i) as [row|] eqn:E.
  - pose proof (square_row _ _ _ _ Hsq E) as Hlen.
    destruct (nth_error row j) as [c|] eqn:E'; [now exists c|].
    apply nth_error_None in E'. lia.
  - apply nth_error_None in E. destruct Hsq as [Hlen _]. lia.
Qed.

Lemma matrix_set_ok (n : nat) (m : Matrix) (i j : nat) (v : Cell) :
  square n m -> (i < n)%nat -> (j < n)%nat ->
  exists m', matrix_set m i j v = Ok m' /\
             square n m' /\
             matrix_get m' i j = Some v /\
             (forall a b, a <> i \/ b <> j -> matrix_get m' a b = matrix_get m a b).
Proof.
  intros Hsq Hi Hj. pose proof Hsq as [Hlen Hrows].
  unfold matrix_set.
  destruct (list_get_ok m i) as [row [Hget Hrow]]; [lia|].
  rewrite Hget. simpl.
  pose proof (square_row _ _ _ _ Hsq Hrow) as Hrlen.
  destruct (list_set_ok row j v) as [row' [Hs1 [Hl1 [Hat1 Ho1]]]]; [lia|].
  rewrite Hs1. simpl.
  destruct (list_set_ok m i row') as [m' [Hs2 [Hl2 [Hat2 Ho2]]]]; [lia|].
  exists m'. split; [exact Hs2|]. split; [|split].
  - split; [lia|]. eapply list_set_Forall; eauto. lia.
  - unfold matrix_get. now rewrite Hat2.
  - intros a b Hab. unfold matrix_get.
    destruct (Nat.eq_dec a i) as [->|Ha].
    + rewrite Hat2, Hrow. apply Ho1. destruct Hab; congruence.
    + now rewrite (Ho2 a Ha).
Qed.

Lemma zeros_square (n : nat) : square n (repeat (repeat (PyInt 0) n) n).
Proof.
  split.
  - apply repeat_length.
  - apply Forall_forall. intros row Hin.
    apply repeat_spec in Hin. subst. apply repeat_length.
Qed.

Lemma zeros_get (n i j : nat) :
  (i < n)%nat -> (j < n)%nat ->
  matrix_get (repeat (repeat (PyInt 0) n) n) i j = Some (PyInt 0).
Proof.
  intros Hi Hj. unfold matrix_get.
  rewrite (nth_error_repeat _ Hi). now apply nth_error_repeat.
Qed.

(** ** Loops *)

(** A loop over [range(a, a + len)] that keeps an invariant returns, and the
    invariant holds at its end. *)
Lemma for_each_seq_from {S : Type} (body : nat -> S -> Exc S) (I : nat -> S -> Prop) :
  forall (len a : nat) (st : S),
    I a st ->
    (forall k s, (a <= k < a + len)%nat -> I k s ->
                 exists s', body k s = Ok s' /\ I (Datatypes.S k) s') ->
    exists st', for_each (seq a len) body st = Ok st' /\ I (a + len)%nat st'.
Proof.
  induction len as [|len IH]; intros a st Hinit Hstep; simpl.
  - exists st. rewrite Nat.add_0_r. auto.
  - destruct (Hstep a st) as [s1 [Hb Hs1]]; [lia | exact Hinit |].
    rewrite Hb. simpl.
    destruct (IH (Datatypes.S a) s1 Hs1) as [st' [Hloop Hend]].
    + intros k s Hk. apply Hstep. lia.
    + exists st'. split; [exact Hloop|].
      now replace (a + Datatypes.S len)%nat with (Datatypes.S a + len)%nat by lia.
Qed.

Lemma for_each_range {S : Type} (body : nat -> S -> Exc S) (I : nat -> S -> Prop)
    (n : nat) (st : S) :
  I 0%nat st ->
  (forall k s, (k < n)%nat -> I k s -> exists s', body k s = Ok s' /\ I (Datatypes.S k) s') ->
  exists st', for_each (seq 0 n) body st = Ok st' /\ I n st'.
Proof.
  intros Hinit Hstep.
  destruct (for_each_seq_from body I n 0 st Hinit) as [st' [H1 H2]]; eauto.
  intros k s Hk. apply Hstep. lia.
Qed.

(** ** Distance matrix *)

Ltac nat_cases :=
  repeat match goal with
         | |- context [Nat.eqb ?x ?y] => destruct (Nat.eqb_spec x y)
         | |- context [Nat.ltb ?x ?y] => destruct (Nat.ltb_spec x y)
         end;
  simpl; subst; try reflexivity; try lia; try congruence.

Section MatrixBuild.

Variable coords : list Coord.
Variable provider : Provider.

Local Abbreviation n := (List.length coords).

(** One cell: the step returns, keeps the shape, looks up only off the
    diagonal and writes at most cell (i, j). *)
Lemma visit_cell_ok (i j : nat) (st : MatrixState) :
  square n (distance_matrix st) -> (i < n)%nat -> (j < n)%nat ->
  Forall off_diagonal (requests st) ->
  exists st',
    visit_cell coords provider i j st = Ok st' /\
    square n (distance_matrix st') /\
    Forall off_diagonal (requests st') /\
    (forall a b,
        matrix_get (distance_matrix st') a b =
        if (Nat.eqb a i && Nat.eqb b j && negb (Nat.eqb i j))%bool
        then Some (expected_cell coords provider i j)
        else matrix_get (distance_matrix st) a b).
Proof.
  intros Hsq Hi Hj Hreq. unfold visit_cell, expected_cell, url_of.
  destruct (Nat.eqb_spec i j) as [Heq|Hne].
  - exists st. split; [reflexivity|]. split; [exact Hsq|]. split; [exact Hreq|].
    intros a b. now rewrite andb_false_r.
  - destruct (list_get_ok coords i Hi) as [ci [Hgi Hni]].
    destruct (list_get_ok coords j Hj) as [cj [Hgj Hnj]].
    rewrite Hgi, Hgj, Hni, Hnj. simpl.
    set (url := make_url ci cj).
    assert (Hreq' : Forall off_diagonal (requests st ++ [mkRequest i j url])).
    { apply Forall_app. split; [exact Hreq|]. constructor; [exact Hne | constructor]. }
    assert (Hwrite : forall v,
      exists st', (m <- matrix_set (distance_matrix st) i j v ;;
                   Ok (mkMatrixState m (requests st ++ [mkRequest i j url]))) = Ok st' /\
        square n (distance_matrix st') /\
        Forall off_diagonal (requests st') /\
        (forall a b,
            matrix_get (distance_matrix st') a b =
            if (Nat.eqb a i && Nat.eqb b j && true)%bool
            then Some v else matrix_get (distance_matrix st) a b)).
    { intros v.
      destruct (matrix_set_ok n (distance_matrix st) i j v Hsq Hi Hj)
        as [m' [Hset [Hsq' [Hat Hother]]]].
      rewrite Hset. simpl. eexists. split; [reflexivity|]. simpl.
      split; [exact Hsq'|]. split; [exact Hreq'|].
      intros a b. rewrite andb_true_r.
      destruct (Nat.eqb_spec a i) as [->|Ha]; simpl.
      - destruct (Nat.eqb_spec b j) as [->|Hb]; [exact Hat|].
        apply Hother. now right.
      - apply Hother. now left. }
    destruct (provider i j url) as [[distance|]|e]; simpl.
    + destruct (Hwrite (PyFloat (distance / 1000)%float)) as [st' [Heq Hrest]].
      exists st'. rewrite Heq. simpl. split; [reflexivity | exact Hrest].
    + destruct (Hwrite PyInf) as [st' [Heq Hrest]].
      exists st'. rewrite Heq. simpl. split; [reflexivity | exact Hrest].
    + apply Hwrite.
Qed.

Lemma inner_loop_ok (i : nat) (st0 : MatrixState) :
  square n (distance_matrix st0) -> (i < n)%nat ->
  Forall off_diagonal (requests st0) ->
  exists st',
    for_each (seq 0 n) (fun j st => visit_cell coords provider i j st) st0 = Ok st' /\
    inner_invariant coords provider st0 i n st'.
Proof.
  intros Hsq Hi Hreq.
  apply (for_each_range (fun j st => visit_cell coords provider i j st) (inner_invariant coords provider st0 i)).
  - split; [exact Hsq|]. split; [exact Hreq|].
    intros a b. now rewrite andb_false_r.
  - intros k s Hk [Hsq_s [Hreq_s Hcells]].
    destruct (visit_cell_ok i k s Hsq_s Hi Hk Hreq_s) as [s' [Hstep [Hsq' [Hreq' Hcells']]]].
    exists s'. split; [exact Hstep|]. split; [exact Hsq'|]. split; [exact Hreq'|].
    intros a b. rewrite Hcells', Hcells. nat_cases.
Qed.

Lemma expected_cell_diagonal (i : nat) : expected_cell coords provider i i = PyInt 0.
Proof. unfold expected_cell. now rewrite Nat.eqb_refl. Qed.

(** [get_distance_matrix] returns: no exception leaves it, whatever the
    provider does; the matrix is [n] by [n], every lookup was for a cell off
    the diagonal, and each cell holds what lines 63 and 73-78 give it. *)
Lemma get_distance_matrix_spec :
  exists ms,
    get_distance_matrix coords provider = Ok ms /\
    square n (distance_matrix ms) /\
    Forall off_diagonal (requests ms) /\
    (forall i j, (i < n)%nat -> (j < n)%nat ->
        matrix_get (distance_matrix ms) i j = Some (expected_cell coords provider i j)).
Proof.
  unfold get_distance_matrix.
  destruct (for_each_range
              (fun i st => for_each (seq 0 n) (fun j st' => visit_cell coords provider i j st') st)
              (outer_invariant coords provider) n (mkMatrixState (repeat (repeat (PyInt 0) n) n) []))
    as [ms [Hrun [Hsq [Hreq Hcells]]]].
  - split; [apply zeros_square|]. split; [constructor|].
    intros a b Ha Hb. simpl. now apply zeros_get.
  - intros k s Hk [Hsq_s [Hreq_s Hcells]].
    destruct (inner_loop_ok k s Hsq_s Hk Hreq_s) as [s' [Hloop [Hsq' [Hreq' Hcells']]]].
    exists s'. split; [exact Hloop|]. split; [exact Hsq'|]. split; [exact Hreq'|].
    intros a b Ha Hb. rewrite Hcells', (Hcells a b Ha Hb).
    destruct (Nat.eqb_spec a k) as [->|Hak]; simpl.
    + destruct (Nat.ltb_spec b n) as [_|?]; [|lia]. simpl.
      destruct (Nat.eqb_spec k b) as [<-|Hkb]; simpl.
      * rewrite expected_cell_diagonal. now nat_cases.
      * now nat_cases.
    + now nat_cases.
  - exists ms. split; [exact Hrun|]. split; [exact Hsq|]. split; [exact Hreq|].
    intros i j Hi Hj. rewrite (Hcells i j Hi Hj).
    destruct (Nat.ltb_spec i n); [reflexivity | lia].
Qed.

End MatrixBuild.

Lemma fallback_estimate_increasing (d1 d2 : Z) :
  d1 < d2 -> fallback_estimate d1 < fallback_estimate d2.
Proof. unfold fallback_estimate. lia. Qed.

(** Rounding to binary64 keeps the sign it is given: a rounded value of
    positive sign is not below zero. *)
Lemma binary_round_aux_not_negative (mx ex : Z) (lx : location) :
  SFltb (binary_round_aux prec emax false mx ex lx) (S754_zero false) = false.
Proof.
  unfold binary_round_aux.
  destruct (shr_fexp prec emax mx ex lx) as [mrs' e'].
  destruct (shr_fexp prec emax _ e' loc_Exact) as [mrs'' e''].
  destruct (shr_m mrs''); [reflexivity | destruct (Z.leb _ _); reflexivity | reflexivity].
Qed.

(** The float quotient by 1000 of a float that is at least 0 is not
    negative. *)
Lemma div_1000_not_negative (d : float) :
  (0 <=? d)%float = true -> (d / 1000 <? 0)%float = false.
Proof.
  rewrite FloatAxioms.leb_spec, FloatAxioms.ltb_spec, FloatAxioms.div_spec.
  change (Prim2SF 0) with (S754_zero false).
  assert (H1000 : exists m e, Prim2SF 1000 = S754_finite false m e)
    by (eexists; eexists; vm_compute; reflexivity).
  destruct H1000 as [m1 [e1 ->]].
  destruct (Prim2SF d) as [s|s| |s m e]; simpl.
  - intros _. destruct s; reflexivity.
  - destruct s; [discriminate | reflexivity].
  - discriminate.
  - destruct s; [discriminate|]. intros _.
    unfold SF64div, SFdiv.
    destruct (SFdiv_core_binary prec emax (Zpos m) e (Zpos m1) e1) as [[mz ez] lz].
    apply binary_round_aux_not_negative.
Qed.

Lemma looked_up_nonneg (outcome : Exc Response) (i j : nat) :
  (forall d, outcome = Ok (WithRoutes d) -> (0 <=? d)%float = true) ->
  cell_nonneg (looked_up outcome i j).
Proof.
  intros Hd. destruct outcome as [[d|]|e]; simpl.
  - apply div_1000_not_negative. now apply Hd.
  - reflexivity.
  - unfold fallback_estimate, index_distance. lia.
Qed.

Lemma expected_cell_off_diagonal (coords : list Coord) (provider : Provider)
    (i j : nat) (url : Url) :
  i <> j -> url_of coords i j = Some url ->
  expected_cell coords provider i j = looked_up (provider i j url) i j.
Proof.
  intros Hne Hurl. unfold expected_cell.
  destruct (Nat.eqb_spec i j); [contradiction|]. now rewrite Hurl.
Qed.

(** C10.  For every coordinate list, the empty one included, and whatever
    each lookup does (a response with routes, one without, an exception),
    [get_distance_matrix] returns: no exception leaves it, and the matrix it
    returns has [len(coords)] rows, each of length [len(coords)]. *)
Theorem C10_get_distance_matrix_total_square (coords : list Coord) (provider : Provider) :
  (exists ms,
      get_distance_matrix coords provider = Ok ms /\
      List.length (distance_matrix ms) = List.length coords /\
      Forall (fun row => List.length row = List.length coords) (distance_matrix ms)) /\
  get_distance_matrix [] provider = Ok (mkMatrixState [] []).
Proof.
  split; [|reflexivity].
  destruct (get_distance_matrix_spec coords provider) as [ms [Hrun [[Hlen Hrows] _]]].
  exists ms. auto.
Qed.

(** C6.  When the lookup for a pair (i, j), i <> j, raises, the matrix is
    still built, and that cell holds [abs(i - j) * 5]: a value fixed by the
    two indices alone, and strictly increasing in the index distance. *)
Theorem C6_fallback_on_provider_error
    (coords : list Coord) (provider : Provider) (i j : nat) (url : Url) (e : PyException) :
  (i < List.length coords)%nat -> (j < List.length coords)%nat -> i <> j ->
  url_of coords i j = Some url ->
  provider i j url = Raise e ->
  exists ms,
    get_distance_matrix coords provider = Ok ms /\
    matrix_get (distance_matrix ms) i j =
      Some (PyInt (fallback_estimate (Z.abs (Z.of_nat i - Z.of_nat j)))) /\
    (forall d1 d2, d1 < d2 -> fallback_estimate d1 < fallback_estimate d2).
Proof.
  intros Hi Hj Hne Hurl Hraise.
  destruct (get_distance_matrix_spec coords provider) as [ms [Hrun [_ [_ Hcells]]]].
  exists ms. split; [exact Hrun|]. split.
  - rewrite (Hcells i j Hi Hj).
    rewrite (expected_cell_off_diagonal coords provider i j url Hne Hurl), Hraise.
    reflexivity.
  - exact fallback_estimate_increasing.
Qed.

Lemma C6_fallback_witness :
  exists ms,
    get_distance_matrix sample_coords sample_provider = Ok ms /\
    matrix_get (distance_matrix ms) 2 0 = Some (PyInt (fallback_estimate (Z.abs (2 - 0)))) /\
    (forall d1 d2, d1 < d2 -> fallback_estimate d1 < fallback_estimate d2).
Proof.
  apply (C6_fallback_on_provider_error sample_coords sample_provider 2 0
           (make_url (5, 6)%Q (1, 2)%Q) RequestException).
  - simpl. lia.
  - simpl. lia.
  - discriminate.
  - reflexivity.
  - reflexivity.
Defined.

(** C7.  In the matrix [get_distance_matrix] returns, every diagonal entry
    is the integer 0 and no lookup was made for a diagonal cell; when the
    distances the provider reports are at least 0, no entry is negative;
    and every cell whose lookup answered without a route holds +infinity. *)
Theorem C7_diagonal_nonnegative_unreachable (coords : list Coord) (provider : Provider) :
  exists ms,
    get_distance_matrix coords provider = Ok ms /\
    (forall i, (i < List.length coords)%nat ->
               matrix_get (distance_matrix ms) i i = Some (PyInt 0)) /\
    Forall off_diagonal (requests ms) /\
    ((forall i j url d, provider i j url = Ok (WithRoutes d) -> (0 <=? d)%float = true) ->
     forall i j, (i < List.length coords)%nat -> (j < List.length coords)%nat ->
       exists c, matrix_get (distance_matrix ms) i j = Some c /\ cell_nonneg c) /\
    (forall i j url, (i < List.length coords)%nat -> (j < List.length coords)%nat ->
       i <> j -> url_of coords i j = Some url -> provider i j url = Ok NoRoutes ->
       matrix_get (distance_matrix ms) i j = Some PyInf).
Proof.
  destruct (get_distance_matrix_spec coords provider) as [ms [Hrun [_ [Hreq Hcells]]]].
  exists ms. split; [exact Hrun|]. split; [|split; [exact Hreq|split]].
  - intros i Hi. rewrite (Hcells i i Hi Hi). now rewrite expected_cell_diagonal.
  - intros Hpos i j Hi Hj. eexists. split; [apply (Hcells i j Hi Hj)|].
    unfold expected_cell. destruct (Nat.eqb i j); [simpl; lia|].
    destruct (url_of coords i j) as [url|]; [|simpl; lia].
    apply looked_up_nonneg. intros d Hd. eapply Hpos; eauto.
  - intros i j url Hi Hj Hne Hurl Hno.
    rewrite (Hcells i j Hi Hj).
    now rewrite (expected_cell_off_diagonal coords provider i j url Hne Hurl), Hno.
Qed.

(** The matrix of the sample service, entry by entry. *)
Lemma C7_sample_matrix_witness :
  exists ms,
    get_distance_matrix sample_coords sample_provider = Ok ms /\
    distance_matrix ms =
      [ [PyInt 0; PyInf; PyInf];
        [PyInt 5; PyInt 0; PyFloat (2500 / 1000)%float];
        [PyInt 10; PyFloat (2500 / 1000)%float; PyInt 0] ] /\
    matrix_get (distance_matrix ms) 0 1 = Some PyInf /\
    (forall i j, (i < List.length sample_coords)%nat -> (j < List.length sample_coords)%nat ->
       exists c, matrix_get (distance_matrix ms) i j = Some c /\ cell_nonneg c).
Proof.
  destruct (C7_diagonal_nonnegative_unreachable sample_coords sample_provider)
    as [ms [Hrun [_ [_ [Hpos Hinf]]]]].
  exists ms. split; [exact Hrun|]. split; [|split].
  - vm_compute in Hrun. inversion Hrun. reflexivity.
  - apply (Hinf 0%nat 1%nat (make_url (1, 2)%Q (3, 4)%Q)).
    + simpl. lia.
    + simpl. lia.
    + discriminate.
    + reflexivity.
    + reflexivity.
  - apply Hpos. intros i j url d. unfold sample_provider.
    destruct (Nat.eqb i 0); [discriminate|].
    destruct (Nat.eqb j 0); [discriminate|].
    intros H. inversion H. reflexivity.
Defined.

(** X4.  A lookup that answers with a route leaves its distance, divided by
    1000 (meters to kilometers), in its cell. *)
Theorem X4_answered_lookup_in_kilometers
    (coords : list Coord) (provider : Provider) (i j : nat) (url : Url) (meters : float) :
  (i < List.length coords)%nat -> (j < List.length coords)%nat -> i <> j ->
  url_of coords i j = Some url ->
  provider i j url = Ok (WithRoutes meters) ->
  exists ms,
    get_distance_matrix coords provider = Ok ms /\
    matrix_get (distance_matrix ms) i j = Some (PyFloat (meters / 1000)%float).
Proof.
  intros Hi Hj Hne Hurl Hans.
  destruct (get_distance_matrix_spec coords provider) as [ms [Hrun [_ [_ Hcells]]]].
  exists ms. split; [exact Hrun|].
  rewrite (Hcells i j Hi Hj).
  now rewrite (expected_cell_off_diagonal coords provider i j url Hne Hurl), Hans.
Qed.

Lemma X4_answered_witness :
  exists ms,
    get_distance_matrix sample_coords sample_provider = Ok ms /\
    matrix_get (distance_matrix ms) 1 2 = Some (PyFloat (2500 / 1000)%float).
Proof.
  apply (X4_answered_lookup_in_kilometers sample_coords sample_provider 1 2
           (make_url (3, 4)%Q (5, 6)%Q) 2500%float).
  - simpl. lia.
  - simpl. lia.
  - discriminate.
  - reflexivity.
  - reflexivity.
Defined.

(** A loop whose every step appends [g k] to a list kept in the state has
    appended [g] of every item, in order, when it returns. *)
Lemma for_each_accumulates {S B : Type} (body : nat -> S -> Exc S)
    (f : S -> list B) (g : nat -> list B) :
  (forall k s s', body k s = Ok s' -> f s' = f s ++ g k) ->
  forall xs st st', for_each xs body st = Ok st' -> f st' = f st ++ flat_map g xs.
Proof.
  intros Hstep. induction xs as [|x rest IH]; intros st st' Hrun; simpl in Hrun.
  - inversion Hrun; subst. simpl. now rewrite app_nil_r.
  - destruct (body x st) as [s1|e] eqn:Hb; simpl in Hrun; [|discriminate].
    rewrite (IH s1 st' Hrun), (Hstep x st s1 Hb). simpl. now rewrite app_assoc.
Qed.

(** One cell logs its lookup, whatever the lookup's outcome. *)
Lemma visit_cell_requests (coords : list Coord) (provider : Provider)
    (i j : nat) (st st' : MatrixState) :
  visit_cell coords provider i j st = Ok st' ->
  requests st' = requests st ++ cell_request coords i j.
Proof.
  unfold visit_cell, cell_request, url_of, list_get.
  destruct (Nat.eqb i j).
  - intros H. inversion H; subst. now rewrite app_nil_r.
  - destruct (nth_error coords i) as [ci|]; simpl; [|discriminate].
    destruct (nth_error coords j) as [cj|]; simpl; [|discriminate].
    destruct (provider i j (make_url ci cj)) as [[meters|]|e]; simpl.
    + destruct (matrix_set (distance_matrix st) i j (PyFloat (meters / 1000)%float)) as [m|e1];
        simpl; [intros H; inversion H; reflexivity|].
      destruct (matrix_set (distance_matrix st) i j
                  (PyInt (fallback_estimate (index_distance i j)))) as [m|e2];
        simpl; intros H; inversion H; reflexivity.
    + destruct (matrix_set (distance_matrix st) i j PyInf) as [m|e1];
        simpl; [intros H; inversion H; reflexivity|].
      destruct (matrix_set (distance_matrix st) i j
                  (PyInt (fallback_estimate (index_distance i j)))) as [m|e2];
        simpl; intros H; inversion H; reflexivity.
    + destruct (matrix_set (distance_matrix st) i j
                  (PyInt (fallback_estimate (index_distance i j)))) as [m|e2];
        simpl; intros H; inversion H; reflexivity.
Qed.

(** The lookups of a returned matrix do not depend on the provider. *)
Lemma get_distance_matrix_requests (coords : list Coord) (provider : Provider)
    (ms : MatrixState) :
  get_distance_matrix coords provider = Ok ms ->
  requests ms = all_requests coords.
Proof.
  unfold get_distance_matrix, all_requests. intros Hrun.
  apply (for_each_accumulates _ requests (row_requests coords)) in Hrun.
  - exact Hrun.
  - intros i s s' Hrow. unfold row_requests.
    apply (for_each_accumulates _ requests (cell_request coords i)) in Hrow.
    + exact Hrow.
    + intros j t t'. apply visit_cell_requests.
Qed.

Lemma flat_map_length_const {A B : Type} (f : A -> list B) (c : nat) (l : list A) :
  (forall x, In x l -> List.length (f x) = c) ->
  List.length (flat_map f l) = (List.length l * c)%nat.
Proof.
  induction l as [|x rest IH]; intros Hc; simpl; [reflexivity|].
  rewrite length_app, IH, (Hc x); [lia| now left |].
  intros y Hy. apply Hc. now right.
Qed.

Lemma cell_request_off_diagonal (coords : list Coord) (i j : nat) :
  (i < List.length coords)%nat -> (j < List.length coords)%nat -> i <> j ->
  exists ci cj,
    nth_error coords i = Some ci /\ nth_error coords j = Some cj /\
    cell_request coords i j = [mkRequest i j (make_url ci cj)].
Proof.
  intros Hi Hj Hne. unfold cell_request, url_of.
  destruct (Nat.eqb_spec i j); [contradiction|].
  destruct (list_get_ok coords i Hi) as [ci [_ Hci]].
  destruct (list_get_ok coords j Hj) as [cj [_ Hcj]].
  exists ci, cj. now rewrite Hci, Hcj.
Qed.

Lemma row_requests_length (coords : list Coord) (i : nat) :
  (i < List.length coords)%nat ->
  List.length (row_requests coords i) = (List.length coords - 1)%nat.
Proof.
  intros Hi. unfold row_requests.
  replace (List.length coords) with (i + S (List.length coords - i - 1))%nat at 1 by lia.
  rewrite seq_app, flat_map_app, length_app. simpl seq. simpl flat_map.
  rewrite length_app.
  rewrite (flat_map_length_const _ 1), (flat_map_length_const _ 1).
  - unfold cell_request at 1. rewrite Nat.eqb_refl, !length_seq. simpl. lia.
  - intros j Hj. apply in_seq in Hj.
    destruct (cell_request_off_diagonal coords i j) as [ci [cj [_ [_ Heq]]]]; try lia.
    now rewrite Heq.
  - intros j Hj. apply in_seq in Hj.
    destruct (cell_request_off_diagonal coords i j) as [ci [cj [_ [_ Heq]]]]; try lia.
    now rewrite Heq.
Qed.

Lemma all_requests_length (coords : list Coord) :
  List.length (all_requests coords)
  = (List.length coords * (List.length coords - 1))%nat.
Proof.
  unfold all_requests.
  rewrite (flat_map_length_const _ (List.length coords - 1)).
  - now rewrite length_seq.
  - intros i Hi. apply in_seq in Hi. apply row_requests_length. lia.
Qed.

Lemma all_requests_In (coords : list Coord) (r : Request) :
  In r (all_requests coords) <->
  exists i j ci cj,
    nth_error coords i = Some ci /\ nth_error coords j = Some cj /\ i <> j /\
    r = mkRequest i j (mkUrl (snd ci, fst ci) (snd cj, fst cj)).
Proof.
  unfold all_requests, row_requests. rewrite in_flat_map. split.
  - intros [i [Hi Hr]]. apply in_flat_map in Hr. destruct Hr as [j [Hj Hr]].
    apply in_seq in Hi. apply in_seq in Hj.
    unfold cell_request in Hr. destruct (Nat.eqb_spec i j) as [|Hne]; [contradiction|].
    destruct (cell_request_off_diagonal coords i j) as [ci [cj [Hci [Hcj _]]]]; try lia.
    unfold url_of in Hr. rewrite Hci, Hcj in Hr. destruct Hr as [Hr|[]].
    exists i, j, ci, cj. auto.
  - intros [i [j [ci [cj [Hci [Hcj [Hne Hr]]]]]]].
    assert (Hi : (i < List.length coords)%nat) by (apply nth_error_Some; congruence).
    assert (Hj : (j < List.length coords)%nat) by (apply nth_error_Some; congruence).
    exists i. split; [apply in_seq; lia|].
    apply in_flat_map. exists j. split; [apply in_seq; lia|].
    unfold cell_request, url_of. destruct (Nat.eqb_spec i j); [contradiction|].
    rewrite Hci, Hcj. left. now subst r.
Qed.

(** X5.  The lookups of one matrix construction are fixed by the coordinate
    list alone: one lookup for each ordered pair of distinct positions, in
    row-major order, [n * (n - 1)] in all, each for the url that writes
    both coordinates longitude first; the provider's answers change none of
    this. *)
Theorem X5_one_lookup_per_ordered_pair (coords : list Coord) (provider : Provider) :
  exists ms,
    get_distance_matrix coords provider = Ok ms /\
    requests ms = all_requests coords /\
    List.length (requests ms) = (List.length coords * (List.length coords - 1))%nat /\
    (forall r,
        In r (requests ms) <->
        exists i j ci cj,
          nth_error coords i = Some ci /\ nth_error coords j = Some cj /\ i <> j /\
          r = mkRequest i j (mkUrl (snd ci, fst ci) (snd cj, fst cj))).
Proof.
  destruct (get_distance_matrix_spec coords provider) as [ms [Hrun _]].
  exists ms. split; [exact Hrun|].
  rewrite (get_distance_matrix_requests coords provider ms Hrun).
  split; [reflexivity|]. split.
  - apply all_requests_length.
  - apply all_requests_In.
Qed.

(** X6.  The synthetic estimate is symmetric and never looks like "same
    place": when the lookups of (i, j) and of (j, i) both raise, the two
    cells hold the same integer [abs(i - j) * 5], which is at least 5 and
    at most [5 * (n - 1)]. *)
Theorem X6_fallback_symmetric_and_bounded
    (coords : list Coord) (provider : Provider) (i j : nat)
    (url_ij url_ji : Url) (e1 e2 : PyException) :
  (i < List.length coords)%nat -> (j < List.length coords)%nat -> i <> j ->
  url_of coords i j = Some url_ij -> url_of coords j i = Some url_ji ->
  provider i j url_ij = Raise e1 -> provider j i url_ji = Raise e2 ->
  exists ms,
    get_distance_matrix coords provider = Ok ms /\
    matrix_get (distance_matrix ms) i j
      = Some (PyInt (Z.abs (Z.of_nat i - Z.of_nat j) * 5)) /\
    matrix_get (distance_matrix ms) j i
      = Some (PyInt (Z.abs (Z.of_nat i - Z.of_nat j) * 5)) /\
    5 <= Z.abs (Z.of_nat i - Z.of_nat j) * 5 <= 5 * (Z.of_nat (List.length coords) - 1).
Proof.
  intros Hi Hj Hne Hu1 Hu2 Hr1 Hr2.
  destruct (get_distance_matrix_spec coords provider) as [ms [Hrun [_ [_ Hcells]]]].
  exists ms. split; [exact Hrun|]. split; [|split].
  - rewrite (Hcells i j Hi Hj).
    now rewrite (expected_cell_off_diagonal coords provider i j url_ij Hne Hu1), Hr1.
  - rewrite (Hcells j i Hj Hi).
    rewrite (expected_cell_off_diagonal coords provider j i url_ji (not_eq_sym Hne) Hu2), Hr2.
    simpl. unfold fallback_estimate, index_distance. do 3 f_equal. lia.
  - lia.
Qed.

Lemma X6_fallback_witness :
  exists ms,
    get_distance_matrix sample_coords (always_raising 0) = Ok ms /\
    matrix_get (distance_matrix ms) 0 2 = Some (PyInt (Z.abs (0 - 2) * 5)) /\
    matrix_get (distance_matrix ms) 2 0 = Some (PyInt (Z.abs (0 - 2) * 5)) /\
    5 <= Z.abs (0 - 2) * 5 <= 5 * (Z.of_nat (List.length sample_coords) - 1).
Proof.
  apply (X6_fallback_symmetric_and_bounded sample_coords (always_raising 0) 0 2
           (make_url (1, 2)%Q (5, 6)%Q) (make_url (5, 6)%Q (1, 2)%Q)
           RequestException RequestException).
  - simpl. lia.
  - simpl. lia.
  - discriminate.
  - reflexivity.
  - reflexivity.
  - reflexivity.
  - reflexivity.
Defined.

(** ** Arc costs *)

Lemma create_routing_model_returns (m : Matrix) :
  (0 < List.length m)%nat ->
  create_routing_model m = Returns (index_manager m, routing_model m).
Proof.
  intros Hlen. unfold create_routing_model, routing_model, index_manager.
  destruct (List.length m); [lia | reflexivity].
Qed.

Lemma create_routing_model_inv (m : Matrix)
    (manager : RoutingIndexManager) (routing : RoutingModel) :
  create_routing_model m = Returns (manager, routing) ->
  (0 < List.length m)%nat /\ manager = index_manager m /\ routing = routing_model m.
Proof.
  unfold create_routing_model, routing_model, index_manager.
  destruct (List.length m) as [|k]; [discriminate|].
  intros H. inversion H. repeat split. lia.
Qed.

(** Without a location the model is not built: the process ends. *)
Lemma create_routing_model_empty : create_routing_model [] = Killed.
Proof. reflexivity. Qed.

Lemma IndexToNode_in_range (m : Matrix) (index : nat) :
  (0 < List.length m)%nat -> (IndexToNode (index_manager m) index < List.length m)%nat.
Proof.
  intros Hn. unfold IndexToNode, index_manager. simpl.
  destruct (Nat.ltb_spec index (List.length m)); lia.
Qed.

Lemma distance_callback_reads (manager : RoutingIndexManager) (m : Matrix)
    (from_index to_index : nat) (c : Cell) :
  matrix_get m (IndexToNode manager from_index) (IndexToNode manager to_index) = Some c ->
  distance_callback manager m from_index to_index = py_int (times_1000 c).
Proof.
  unfold matrix_get, distance_callback, list_get. intros H.
  destruct (nth_error m (IndexToNode manager from_index)) as [row|]; [|discriminate].
  simpl. now rewrite H.
Qed.

(** The callback raises whenever the entry it reads is +infinity. *)
Lemma distance_callback_infinite (manager : RoutingIndexManager) (m : Matrix)
    (from_index to_index : nat) :
  matrix_get m (IndexToNode manager from_index) (IndexToNode manager to_index) = Some PyInf ->
  distance_callback manager m from_index to_index = Raise OverflowError.
Proof.
  intros H. now rewrite (distance_callback_reads _ _ _ _ _ H).
Qed.

(** [int] of a float raises only on NaN and on the infinities. *)
Lemma py_int_float_raises (f : float) (e : PyException) :
  py_int (PyFloat f) = Raise e ->
  (e = ValueError /\ is_nan f = true) \/ (e = OverflowError /\ is_infinity f = true).
Proof.
  unfold py_int. destruct (is_nan f); [intros H; inversion H; now left|].
  destruct (is_infinity f); [intros H; inversion H; now right | discriminate].
Qed.

(** C3.  Two stops with no route between them: the matrix the program
    builds has +infinity off the diagonal, the only tour from the depot
    (index 0) through index 1 to the route's end (index 2) must use the arc
    0 -> 1, and evaluating the arc-cost callback of the model built on that
    matrix on that arc raises OverflowError, as does costing the tour. *)
Theorem C3_callback_raises_on_infinite_arc :
  exists ms manager routing,
    get_distance_matrix two_coords no_route_provider = Ok ms /\
    distance_matrix ms = [ [PyInt 0; PyInf]; [PyInf; PyInt 0] ] /\
    create_routing_model (distance_matrix ms) = Returns (manager, routing) /\
    arc_cost_evaluator routing 0 1 = Raise OverflowError /\
    tour_cost routing [0; 1; 2]%nat = Raise OverflowError.
Proof.
  eexists. eexists. eexists. split; [vm_compute; reflexivity|].
  cbn [distance_matrix].
  split; [reflexivity|]. split; [reflexivity|].
  split.
  - apply distance_callback_infinite. reflexivity.
  - vm_compute. reflexivity.
Qed.

(** X7.  On a square, non-empty matrix the model is built and its callback
    never indexes out of range, whatever indices the search passes (an
    index from the number of nodes on is read as the depot, node 0): it
    computes [int(entry * 1000)] of an entry of the matrix, which is
    [z * 1000] for an int entry [z]; it raises only for a float entry, and
    then ValueError when the entry's thousandfold is NaN and OverflowError
    when it is infinite. *)
Theorem X7_callback_reads_inside_matrix
    (n : nat) (m : Matrix) (from_index to_index : nat) :
  square n m -> (0 < n)%nat ->
  exists manager routing c,
    create_routing_model m = Returns (manager, routing) /\
    matrix_get m (IndexToNode manager from_index) (IndexToNode manager to_index) = Some c /\
    arc_cost_evaluator routing from_index to_index = py_int (times_1000 c) /\
    (forall z, c = PyInt z -> arc_cost_evaluator routing from_index to_index = Ok (z * 1000)) /\
    (forall e,
        arc_cost_evaluator routing from_index to_index = Raise e ->
        exists f,
          c = PyFloat f /\
          ((e = ValueError /\ is_nan (f * 1000)%float = true) \/
           (e = OverflowError /\ is_infinity (f * 1000)%float = true))).
Proof.
  intros Hsq Hn. pose proof Hsq as [Hlen _].
  assert (Hpos : (0 < List.length m)%nat) by lia.
  destruct (square_get n m (IndexToNode (index_manager m) from_index)
              (IndexToNode (index_manager m) to_index) Hsq) as [c Hc];
    try (rewrite <- Hlen; now apply IndexToNode_in_range).
  exists (index_manager m), (routing_model m), c.
  split; [now apply create_routing_model_returns|]. split; [exact Hc|].
  cbn [routing_model arc_cost_evaluator].
  rewrite (distance_callback_reads _ _ _ _ c Hc).
  split; [reflexivity|]. split.
  - intros z ->. reflexivity.
  - intros e He. destruct c as [z|f]; [discriminate|].
    exists f. split; [reflexivity|]. now apply py_int_float_raises.
Qed.

Lemma X7_callback_witness :
  exists manager routing c,
    create_routing_model two_stop_matrix = Returns (manager, routing) /\
    matrix_get two_stop_matrix (IndexToNode manager 1) (IndexToNode manager 2) = Some c /\
    arc_cost_evaluator routing 1 2 = py_int (times_1000 c) /\
    (forall z, c = PyInt z -> arc_cost_evaluator routing 1 2 = Ok (z * 1000)) /\
    (forall e,
        arc_cost_evaluator routing 1 2 = Raise e ->
        exists f,
          c = PyFloat f /\
          ((e = ValueError /\ is_nan (f * 1000)%float = true) \/
           (e = OverflowError /\ is_infinity (f * 1000)%float = true))).
Proof.
  apply (X7_callback_reads_inside_matrix 2 two_stop_matrix 1 2).
  - split; [reflexivity|]. repeat constructor.
  - lia.
Defined.

(** X8.  Matrix construction and callback together, for a non-empty
    coordinate list.  With [a] and [b] the nodes of the two indices: the
    arc costs 0 when [a = b]; it costs [abs(a - b) * 5 * 1000] when the
    lookup of (a, b) raised; evaluating it raises OverflowError when the
    lookup found no route; when the lookup reported a distance it is
    [int(distance / 1000 * 1000)] in float arithmetic; and it raises only
    where the lookup of (a, b) answered, never on the diagonal and never on
    a fallback entry. *)
Theorem X8_arc_costs_of_built_matrix
    (coords : list Coord) (provider : Provider) (from_index to_index : nat) :
  (0 < List.length coords)%nat ->
  exists ms manager routing,
    get_distance_matrix coords provider = Ok ms /\
    create_routing_model (distance_matrix ms) = Returns (manager, routing) /\
    let a := IndexToNode manager from_index in
    let b := IndexToNode manager to_index in
    let arc := arc_cost_evaluator routing from_index to_index in
    (a < List.length coords)%nat /\ (b < List.length coords)%nat /\
    (a = b -> arc = Ok 0) /\
    (forall url e, a <> b -> url_of coords a b = Some url -> provider a b url = Raise e ->
                   arc = Ok (Z.abs (Z.of_nat a - Z.of_nat b) * 5 * 1000)) /\
    (forall url, a <> b -> url_of coords a b = Some url -> provider a b url = Ok NoRoutes ->
                 arc = Raise OverflowError) /\
    (forall url meters, a <> b -> url_of coords a b = Some url ->
                 provider a b url = Ok (WithRoutes meters) ->
                 arc = py_int (PyFloat (meters / 1000 * 1000)%float)) /\
    (forall e, arc = Raise e ->
               a <> b /\
               exists url response,
                 url_of coords a b = Some url /\ provider a b url = Ok response).
Proof.
  intros Hn.
  destruct (get_distance_matrix_spec coords provider) as [ms [Hrun [Hsq [_ Hcells]]]].
  pose proof Hsq as [Hlen _].
  assert (Hpos : (0 < List.length (distance_matrix ms))%nat) by lia.
  exists ms, (index_manager (distance_matrix ms)), (routing_model (distance_matrix ms)).
  split; [exact Hrun|]. split; [now apply create_routing_model_returns|].
  intros a b arc.
  assert (Ha : (a < List.length coords)%nat)
    by (rewrite <- Hlen; now apply IndexToNode_in_range).
  assert (Hb : (b < List.length coords)%nat)
    by (rewrite <- Hlen; now apply IndexToNode_in_range).
  assert (Harc : arc = py_int (times_1000 (expected_cell coords provider a b))).
  { unfold arc. cbn [routing_model arc_cost_evaluator].
    apply distance_callback_reads. fold a b. now apply Hcells. }
  rewrite Harc. split; [exact Ha|]. split; [exact Hb|].
  split; [|split; [|split; [|split]]].
  - intros ->. now rewrite expected_cell_diagonal.
  - intros url e Hne Hurl Hraise.
    now rewrite (expected_cell_off_diagonal coords provider a b url Hne Hurl), Hraise.
  - intros url Hne Hurl Hno.
    now rewrite (expected_cell_off_diagonal coords provider a b url Hne Hurl), Hno.
  - intros url meters Hne Hurl Hans.
    now rewrite (expected_cell_off_diagonal coords provider a b url Hne Hurl), Hans.
  - intros e He. unfold expected_cell in He.
    destruct (Nat.eqb_spec a b) as [|Hne]; [discriminate|].
    destruct (url_of coords a b) as [url|] eqn:Hurl; [|discriminate].
    destruct (provider a b url) as [response|e'] eqn:Hp; [|discriminate].
    split; [exact Hne|]. now exists url, response.
Qed.

Lemma X8_arc_costs_witness :
  exists ms manager routing,
    get_distance_matrix sample_coords sample_provider = Ok ms /\
    create_routing_model (distance_matrix ms) = Returns (manager, routing) /\
    let a := IndexToNode manager 2 in
    let b := IndexToNode manager 3 in
    let arc := arc_cost_evaluator routing 2 3 in
    (a < List.length sample_coords)%nat /\ (b < List.length sample_coords)%nat /\
    (a = b -> arc = Ok 0) /\
    (forall url e, a <> b -> url_of sample_coords a b = Some url ->
                   sample_provider a b url = Raise e ->
                   arc = Ok (Z.abs (Z.of_nat a - Z.of_nat b) * 5 * 1000)) /\
    (forall url, a <> b -> url_of sample_coords a b = Some url ->
                 sample_provider a b url = Ok NoRoutes ->
                 arc = Raise OverflowError) /\
    (forall url meters, a <> b -> url_of sample_coords a b = Some url ->
                 sample_provider a b url = Ok (WithRoutes meters) ->
                 arc = py_int (PyFloat (meters / 1000 * 1000)%float)) /\
    (forall e, arc = Raise e ->
               a <> b /\
               exists url response,
                 url_of sample_coords a b = Some url /\ sample_provider a b url = Ok response).
Proof.
  apply (X8_arc_costs_of_built_matrix sample_coords sample_provider 2 3).
  simpl. lia.
Defined.

(** The callback on the sample matrix: a lookup of 1001 m is stored as the
    float 1001 / 1000, whose thousandfold truncates to 1000; the arc back
    to the depot from node 2 is a fallback entry; an arc out of node 0 has
    no route. *)
Lemma sample_arc_costs :
  py_int (times_1000 (PyFloat (1001 / 1000)%float)) = Ok 1000 /\
  exists ms manager routing,
    get_distance_matrix sample_coords sample_provider = Ok ms /\
    create_routing_model (distance_matrix ms) = Returns (manager, routing) /\
    arc_cost_evaluator routing 1 2 = Ok 2500 /\
    arc_cost_evaluator routing 2 3 = Ok 10000 /\
    arc_cost_evaluator routing 0 1 = Raise OverflowError.
Proof.
  split; [vm_compute; reflexivity|].
  eexists. eexists. eexists. split; [vm_compute; reflexivity|].
  split; [reflexivity|]. repeat split; vm_compute; reflexivity.
Qed.

(** ** Route extraction *)

Section Extraction.

Variable coords : list Coord.
Variable m : Matrix.
Variable solution : Assignment.

Hypothesis matrix_rows : List.length m = List.length coords.

Local Abbreviation manager := (index_manager m).
Local Abbreviation routing := (routing_model m).

Lemma IsEnd_spec (index : nat) :
  IsEnd routing index = Nat.leb (List.length coords) index.
Proof. unfold IsEnd, routing_model, index_manager. simpl. now rewrite matrix_rows. Qed.

(** A loop test at a node: its coordinate is appended and the walk goes on. *)
Lemma extract_route_node (fuel cur : nat) (route : list Coord) :
  (cur < List.length coords)%nat ->
  extract_route (S fuel) manager routing solution coords cur route =
  extract_route fuel manager routing solution coords (Value_NextVar solution cur)
    (route ++ [nth cur coords (0, 0)%Q]).
Proof.
  intros Hcur. cbn [extract_route]. rewrite IsEnd_spec.
  destruct (Nat.leb_spec (List.length coords) cur) as [?|_]; [lia|].
  unfold IndexToNode, index_manager. simpl num_nodes. rewrite matrix_rows.
  repeat rewrite (proj2 (Nat.ltb_lt cur (List.length coords)) Hcur).
  destruct (nth_error coords cur) as [c|] eqn:E;
    [|apply nth_error_None in E; lia].
  now rewrite (nth_error_nth _ _ _ E).
Qed.

(** A loop test at an end index: the loop is over, nothing is appended. *)
Lemma extract_route_end (fuel index : nat) (route : list Coord) :
  (List.length coords <= index)%nat ->
  extract_route (S fuel) manager routing solution coords index route = Some route.
Proof.
  intros Hend. cbn [extract_route]. rewrite IsEnd_spec.
  destruct (Nat.leb_spec (List.length coords) index) as [_|?]; [reflexivity | lia].
Qed.

(** Along a chain of the assignment the loop appends the coordinates of the
    chain's nodes, one per index, and stops at the end index without
    appending anything for it. *)
Lemma extract_route_follows (rest : list nat) :
  forall (cur fuel : nat) (route : list Coord),
    follows solution (List.length coords) cur rest ->
    (List.length rest + 1 < fuel)%nat ->
    extract_route fuel manager routing solution coords cur route =
      Some (route ++ route_of coords (cur :: rest)).
Proof.
  induction rest as [|x rest' IH]; intros cur fuel route Hf Hfuel.
  - destruct Hf as [Hcur Hend].
    destruct fuel as [|[|fuel']]; simpl in Hfuel; try lia.
    rewrite (extract_route_node _ _ _ Hcur).
    now rewrite (extract_route_end _ _ _ Hend).
  - destruct Hf as [Hcur [Hnext Hrest]].
    destruct fuel as [|fuel']; simpl in Hfuel; try lia.
    rewrite (extract_route_node _ _ _ Hcur), Hnext.
    rewrite (IH x fuel' _ Hrest); [|lia].
    unfold route_of. simpl. now rewrite <- app_assoc.
Qed.

End Extraction.

(** C4.  When the search returns an assignment (here: one that leads from
    the start through the indices [p] to the route's end, passing every node
    once), the model is built and the loop returns the coordinates of the
    nodes [0 :: p]: the route starts at the depot index 0, holds every index
    of the matrix exactly once, and holds the depot only in first place:
    nothing is appended for the route's end, so the route does not come back
    to the depot. *)
Theorem C4_route_from_depot_each_node_once
    (coords : list Coord) (m : Matrix) (solution : Assignment) (p : list nat) :
  List.length m = List.length coords ->
  follows solution (List.length coords) 0 p ->
  Permutation (0%nat :: p) (seq 0 (List.length coords)) ->
  exists manager routing,
    create_routing_model m = Returns (manager, routing) /\
    extract_route (route_fuel manager) manager routing solution coords (Start routing) []
      = Some (route_of coords (0%nat :: p)) /\
    NoDup (0%nat :: p) /\
    (forall k, In k (0%nat :: p) <-> (k < List.length coords)%nat) /\
    ~ In 0%nat p /\
    List.length (route_of coords (0%nat :: p)) = List.length coords.
Proof.
  intros Hrows Hchain Hperm.
  assert (Hlen : List.length (0%nat :: p) = List.length coords).
  { rewrite (Permutation_length Hperm). apply length_seq. }
  assert (Hnd : NoDup (0%nat :: p)).
  { apply (Permutation_NoDup (Permutation_sym Hperm)). apply seq_NoDup. }
  exists (index_manager m), (routing_model m).
  split; [apply create_routing_model_returns; simpl in Hlen; lia|].
  split; [|split; [exact Hnd|split; [|split]]].
  - change (Start (routing_model m)) with 0%nat.
    rewrite (extract_route_follows coords m solution Hrows p 0 _ [] Hchain).
    + reflexivity.
    + unfold route_fuel, index_manager. simpl num_nodes. simpl in Hlen. lia.
  - intros k. split; intros Hk.
    + apply (Permutation_in _ Hperm) in Hk. apply in_seq in Hk. lia.
    + apply (Permutation_in _ (Permutation_sym Hperm)). apply in_seq. lia.
  - now inversion Hnd.
  - unfold route_of. now rewrite length_map.
Qed.

Lemma C4_route_witness :
  exists manager routing,
    create_routing_model two_stop_matrix = Returns (manager, routing) /\
    extract_route (route_fuel manager) manager routing successor_assignment two_coords
      (Start routing) []
      = Some (route_of two_coords [0; 1]%nat) /\
    NoDup [0; 1]%nat /\
    (forall k, In k [0; 1]%nat <-> (k < List.length two_coords)%nat) /\
    ~ In 0%nat [1%nat] /\
    List.length (route_of two_coords [0; 1]%nat) = List.length two_coords.
Proof.
  apply (C4_route_from_depot_each_node_once two_coords two_stop_matrix
           successor_assignment [1%nat]).
  - reflexivity.
  - simpl. lia.
  - apply Permutation_refl.
Defined.

(** The route extracted for two stops is depot, stop: it does not end at the
    depot, and it is not the closed tour depot, stop, depot. *)
Lemma C4_route_does_not_end_at_depot :
  exists manager routing route,
    create_routing_model two_stop_matrix = Returns (manager, routing) /\
    extract_route (route_fuel manager) manager routing successor_assignment two_coords
      (Start routing) []
      = Some route /\
    route = route_of two_coords [0; 1]%nat /\
    route <> route_of two_coords [0; 1; 0]%nat /\
    last route (0, 0)%Q = nth 1 two_coords (0, 0)%Q /\
    last route (0, 0)%Q <> nth 0 two_coords (0, 0)%Q.
Proof.
  eexists. eexists. eexists. split; [reflexivity|].
  split; [vm_compute; reflexivity|].
  split; [reflexivity|]. split; [|split].
  - vm_compute. discriminate.
  - reflexivity.
  - vm_compute. discriminate.
Qed.

(** A loop that ends only appends coordinates of [location_coords]. *)
Lemma extract_route_appends
    (fuel : nat) (manager : RoutingIndexManager) (routing : RoutingModel)
    (solution : Assignment) (coords : list Coord) :
  forall (index : nat) (route r : list Coord),
    extract_route fuel manager routing solution coords index route = Some r ->
    exists added,
      r = route ++ added /\ incl added coords /\ (List.length added < fuel)%nat.
Proof.
  induction fuel as [|fuel IH]; intros index route r Hrun; simpl in Hrun; [discriminate|].
  destruct (IsEnd routing index).
  - inversion Hrun; subst. exists []. rewrite app_nil_r.
    split; [reflexivity|]. split; [intros x []|simpl; lia].
  - apply IH in Hrun. destruct Hrun as [added [Hr [Hincl Hlen]]].
    destruct (Nat.ltb (IndexToNode manager index) (List.length coords)).
    + destruct (nth_error coords (IndexToNode manager index)) as [c|] eqn:Hc.
      * exists (c :: added). rewrite Hr, <- app_assoc. split; [reflexivity|].
        split; [|simpl; lia].
        intros x [<-|Hx]; [eapply nth_error_In; eauto | now apply Hincl].
      * exists added. split; [exact Hr|]. split; [exact Hincl | lia].
    + exists added. split; [exact Hr|]. split; [exact Hincl | lia].
Qed.

(** X9.  Whatever the assignment, a loop that ends only appends: the route
    it returns is the route it started with followed by coordinates taken
    from [location_coords], fewer of them than loop tests were made. *)
Theorem X9_route_points_come_from_coords
    (fuel : nat) (manager : RoutingIndexManager) (routing : RoutingModel)
    (solution : Assignment) (coords : list Coord)
    (index : nat) (route r : list Coord) :
  extract_route fuel manager routing solution coords index route = Some r ->
  exists added,
    r = route ++ added /\ incl added coords /\ (List.length added < fuel)%nat.
Proof.
  apply extract_route_appends.
Qed.

Lemma X9_route_points_witness :
  exists added,
    route_of two_coords [0; 1]%nat = [] ++ added /\
    incl added two_coords /\ (List.length added < 3)%nat.
Proof.
  apply (X9_route_points_come_from_coords 3
           (index_manager two_stop_matrix) (routing_model two_stop_matrix)
           successor_assignment two_coords 0 [] (route_of two_coords [0; 1]%nat)).
  vm_compute. reflexivity.
Defined.

(** ** The run *)

Lemma extract_route_terminates (manager : RoutingIndexManager) (routing : RoutingModel)
    (solution : Assignment) (coords : list Coord) (fuel : nat) :
  forall (index : nat) (route : list Coord),
    reaches_end fuel routing solution index = true ->
    exists r, extract_route fuel manager routing solution coords index route = Some r.
Proof.
  induction fuel as [|fuel IH]; intros index route Hend; simpl in Hend.
  - discriminate.
  - cbn [extract_route].
    destruct (IsEnd routing index); [now exists route|].
    simpl in Hend. now apply IH.
Qed.

Lemma successor_reaches_end (routing : RoutingModel) (fuel : nat) :
  forall index,
    (0 < fuel)%nat ->
    (num_nodes (routing_manager routing) < index + fuel)%nat ->
    reaches_end fuel routing successor_assignment index = true.
Proof.
  induction fuel as [|fuel IH]; intros index Hpos Hfuel; [lia|].
  cbn [reaches_end]. unfold IsEnd at 1.
  destruct (Nat.leb_spec (num_nodes (routing_manager routing)) index) as [_|Hlt];
    [reflexivity|].
  simpl. apply IH; lia.
Qed.

Lemma solve_all_sound : solver_sound solve_all.
Proof.
  intros idx routing solution H. unfold solve_all in H. inversion H; subst.
  apply successor_reaches_end; unfold route_fuel; lia.
Qed.

Lemma solve_all_but_first_sound : solver_sound solve_all_but_first.
Proof.
  intros idx routing solution H. unfold solve_all_but_first in H.
  destruct (Nat.eqb idx 0); [discriminate|]. inversion H; subst.
  apply successor_reaches_end; unfold route_fuel; lia.
Qed.

Lemma lookups_of_gets (reqs : list Request) (rest : list Effect) :
  flat_map (fun e => match e with HttpGet r => [r] | _ => [] end)
           (map HttpGet reqs ++ rest)
  = reqs ++ flat_map (fun e => match e with HttpGet r => [r] | _ => [] end) rest.
Proof.
  induction reqs as [|r reqs IH]; simpl; [reflexivity | now rewrite IH].
Qed.

Lemma saved_of_gets (reqs : list Request) (rest : list Effect) :
  flat_map (fun e => match e with SaveMap filename m => [(filename, m)] | _ => [] end)
           (map HttpGet reqs ++ rest)
  = flat_map (fun e => match e with SaveMap filename m => [(filename, m)] | _ => [] end) rest.
Proof.
  induction reqs as [|r reqs IH]; simpl; [reflexivity | exact IH].
Qed.

Section RunResults.

Variable provider : nat -> Provider.
Variable solver : Solver.

(** One truck, when its iteration returns: the state it leaves, in closed
    form.  The lookups of its kept stops are added to the effects, its line
    to the map and, when it is solved, its box to the summary. *)
Lemma truck_iteration_result (idx : nat) (truck_name : string) (truck_data : Truck)
    (st st' : RunState) :
  truck_iteration provider solver idx truck_name truck_data st = Returns st' ->
  st' = mkRunState
          (mkMap (map_location (route_map st)) (zoom_start (route_map st))
                 (layers (route_map st) ++ truck_lines provider solver idx truck_data)
                 (html_children (route_map st)))
          (if truck_solved provider solver idx truck_data
           then String.append (summary_boxes st) (summary_box truck_name (box_position_of idx))
           else summary_boxes st)
          (trace st ++ map HttpGet (all_requests (kept_coords truck_data))).
Proof.
  unfold truck_iteration, truck_lines, truck_route, truck_solved, truck_model, kept_coords.
  cbv zeta.
  destruct (get_distance_matrix _ (provider idx)) as [ms|e] eqn:Hrun; [|discriminate].
  rewrite (get_distance_matrix_requests _ _ _ Hrun).
  destruct (create_routing_model (distance_matrix ms)) as [[manager routing]| | |];
    try discriminate.
  destruct st as [[loc zoom lines html] boxes effs]. cbn [route_map summary_boxes trace
    map_location zoom_start layers html_children].
  destruct (solver idx routing search_parameters) as [solution|].
  - destruct (extract_route _ _ _ solution _ _ []) as [route|]; [|discriminate].
    intros H. inversion H; subst; clear H.
    destruct route as [|c route']; [now rewrite app_nil_r | reflexivity].
  - intros H. inversion H; subst; clear H. now rewrite app_nil_r.
Qed.

Lemma trucks_loop_result (fleet : list (string * Truck)) :
  forall (idx : nat) (st st' : RunState),
    trucks_loop provider solver idx fleet st = Returns st' ->
    st' = mkRunState
            (mkMap (map_location (route_map st)) (zoom_start (route_map st))
                   (layers (route_map st) ++ expected_lines provider solver idx fleet)
                   (html_children (route_map st)))
            (expected_boxes provider solver idx fleet (summary_boxes st))
            (trace st ++ map HttpGet (fleet_requests fleet)).
Proof.
  induction fleet as [|[truck_name truck_data] rest IH]; intros idx st st' Hrun;
    cbn [trucks_loop] in Hrun.
  - inversion Hrun; subst. destruct st' as [[loc zoom lines html] boxes effs].
    simpl. now rewrite !app_nil_r.
  - destruct (truck_iteration provider solver idx truck_name truck_data st)
      as [st1| | |] eqn:Hit; try discriminate.
    apply truck_iteration_result in Hit. apply IH in Hrun. subst st1.
    rewrite Hrun. cbn [route_map summary_boxes trace map_location zoom_start layers
      html_children expected_lines expected_boxes]. unfold fleet_requests.
    cbn [flat_map snd]. now rewrite map_app, <- !app_assoc.
Qed.

(** A run that returns: what it returns and leaves, in closed form. *)
Lemma optimize_routes_result (fleet : list (string * Truck)) (res : RunResult) :
  optimize_routes fleet provider solver = Returns res ->
  res = mkRunResult tt
          (map HttpGet (fleet_requests fleet) ++
           [SaveMap "optimized_route.html"
              (mkMap (43.89, -79.39)%Q 12
                 (expected_lines provider solver 0 fleet)
                 [expected_boxes provider solver 0 fleet ""]);
            Print "📍 Map saved as 'optimized_route.html'."]).
Proof.
  unfold optimize_routes.
  destruct (trucks_loop provider solver 0 fleet initial_state) as [st| | |] eqn:Hloop;
    try discriminate.
  apply trucks_loop_result in Hloop. subst st.
  intros H. inversion H. reflexivity.
Qed.

(** A truck that is not solved gets no line. *)
Lemma truck_unsolved_no_line (idx : nat) (truck_data : Truck) :
  truck_solved provider solver idx truck_data = false ->
  truck_lines provider solver idx truck_data = [].
Proof.
  unfold truck_solved, truck_model, truck_lines, truck_route, kept_coords.
  destruct (get_distance_matrix _ (provider idx)) as [ms|e]; [|reflexivity].
  destruct (create_routing_model (distance_matrix ms)) as [[manager routing]| | |];
    try reflexivity.
  destruct (solver idx routing search_parameters); [discriminate | reflexivity].
Qed.

(** The line of a truck, if there is one, is a line of that truck. *)
Lemma truck_lines_cases (idx : nat) (truck_data : Truck) :
  truck_lines provider solver idx truck_data = [] \/
  exists pl, truck_lines provider solver idx truck_data = [pl] /\
             line_of_truck truck_data pl.
Proof.
  unfold truck_lines.
  destruct (truck_route provider solver idx truck_data) as [[|c route]|] eqn:Hroute;
    [now left | | now left].
  right. eexists. split; [reflexivity|].
  unfold line_of_truck. cbn [pl_color pl_weight pl_opacity pl_locations].
  repeat (split; [reflexivity|]). split; [discriminate|].
  unfold truck_route in Hroute.
  destruct (get_distance_matrix _ (provider idx)) as [ms|e]; [|discriminate].
  destruct (create_routing_model (distance_matrix ms)) as [[manager routing]| | |];
    try discriminate.
  destruct (solver idx routing search_parameters) as [solution|]; [|discriminate].
  apply extract_route_appends in Hroute. destruct Hroute as [added [Hr [Hincl _]]].
  simpl in Hr. now rewrite Hr.
Qed.

(** The lines of a fleet are lines of trucks of the fleet, one truck after
    the other and no truck twice. *)
Lemma expected_lines_drawn (fleet : list (string * Truck)) :
  forall idx,
  exists drawn,
    subsequence drawn fleet /\
    Forall2 (fun pl t => line_of_truck (snd t) pl)
            (expected_lines provider solver idx fleet) drawn.
Proof.
  induction fleet as [|[truck_name truck_data] rest IH]; intros idx.
  - exists []. split; constructor.
  - destruct (IH (S idx)) as [drawn [Hsub Hall]]. cbn [expected_lines].
    destruct (truck_lines_cases idx truck_data) as [->|[pl [-> Hline]]].
    + exists drawn. split; [now constructor | exact Hall].
    + exists ((truck_name, truck_data) :: drawn). split; [now constructor|].
      simpl. constructor; [exact Hline | exact Hall].
Qed.

Hypothesis sound : solver_sound solver.

(** A truck with a kept stop: its iteration returns. *)
Lemma truck_iteration_returns (idx : nat) (truck_name : string) (truck_data : Truck)
    (st : RunState) :
  kept_coords truck_data <> [] ->
  exists st', truck_iteration provider solver idx truck_name truck_data st = Returns st'.
Proof.
  intros Hkept. unfold truck_iteration. fold (kept_coords truck_data). cbv zeta.
  destruct (get_distance_matrix_spec (kept_coords truck_data) (provider idx))
    as [ms [Hrun [[Hrows _] _]]].
  rewrite Hrun.
  rewrite create_routing_model_returns
    by (rewrite Hrows; destruct (kept_coords truck_data); [contradiction | simpl; lia]).
  destruct (solver idx (routing_model (distance_matrix ms)) search_parameters)
    as [solution|] eqn:Hsolve; [|eexists; reflexivity].
  apply sound in Hsolve.
  destruct (extract_route_terminates (index_manager (distance_matrix ms))
              (routing_model (distance_matrix ms)) solution (kept_coords truck_data)
              (route_fuel (index_manager (distance_matrix ms)))
              (Start (routing_model (distance_matrix ms))) [] Hsolve) as [route Hroute].
  rewrite Hroute. eexists. reflexivity.
Qed.

Lemma trucks_loop_returns (fleet : list (string * Truck)) :
  every_truck_keeps_a_stop fleet ->
  forall (idx : nat) (st : RunState),
  exists st', trucks_loop provider solver idx fleet st = Returns st'.
Proof.
  induction 1 as [|[truck_name truck_data] rest Hkept _ IH]; intros idx st;
    cbn [trucks_loop].
  - now exists st.
  - destruct (truck_iteration_returns idx truck_name truck_data st Hkept) as [st1 Hit].
    rewrite Hit. apply IH.
Qed.

Lemma optimize_routes_returns (fleet : list (string * Truck)) :
  every_truck_keeps_a_stop fleet ->
  exists res, optimize_routes fleet provider solver = Returns res.
Proof.
  intros Hkept. unfold optimize_routes.
  destruct (trucks_loop_returns fleet Hkept 0 initial_state) as [st Hloop].
  rewrite Hloop. eexists. reflexivity.
Qed.

(** The route of a solved truck starts at the first stop the filter kept. *)
Lemma truck_solved_route (idx : nat) (truck_data : Truck) (c : Coord) :
  truck_solved provider solver idx truck_data = true ->
  hd_error (kept_coords truck_data) = Some c ->
  exists route, truck_route provider solver idx truck_data = Some (c :: route).
Proof.
  unfold truck_solved, truck_model, truck_route. fold (kept_coords truck_data).
  intros Hsolved Hhd.
  destruct (get_distance_matrix_spec (kept_coords truck_data) (provider idx))
    as [ms [Hrun [[Hrows _] _]]].
  rewrite Hrun in *.
  assert (Hpos : (0 < List.length (kept_coords truck_data))%nat)
    by (destruct (kept_coords truck_data); [discriminate | simpl; lia]).
  rewrite create_routing_model_returns in * by (rewrite Hrows; exact Hpos).
  destruct (solver idx (routing_model (distance_matrix ms)) search_parameters)
    as [solution|] eqn:Hsolve; [|discriminate].
  apply sound in Hsolve.
  destruct (extract_route_terminates (index_manager (distance_matrix ms))
              (routing_model (distance_matrix ms)) solution (kept_coords truck_data)
              (route_fuel (index_manager (distance_matrix ms)))
              (Start (routing_model (distance_matrix ms))) [] Hsolve) as [route Hroute].
  rewrite Hroute.
  change (route_fuel (index_manager (distance_matrix ms)))
    with (S (List.length (distance_matrix ms))) in Hroute.
  change (Start (routing_model (distance_matrix ms))) with 0%nat in Hroute.
  rewrite (extract_route_node (kept_coords truck_data) (distance_matrix ms) solution Hrows
             (List.length (distance_matrix ms)) 0 [] Hpos) in Hroute.
  apply extract_route_appends in Hroute. destruct Hroute as [added [Hr _]].
  exists added. rewrite Hr. simpl. f_equal. f_equal.
  destruct (kept_coords truck_data); [discriminate|]. now inversion Hhd.
Qed.

End RunResults.
Lemma trucks_keep_a_stop : every_truck_keeps_a_stop trucks.
Proof.
  unfold every_truck_keeps_a_stop, trucks.
  repeat (constructor; [intros H; vm_compute in H; discriminate H|]).
  constructor.
Qed.


(** C2.  The summary the run writes is a fixed text.  On the program's own
    fleet, with the fallback distances (a route of 40 km for the Markham
    truck) and with every pair 1000 km apart (a route of 5000 km), the saved
    html is the same two boxes, which report an optimized distance of 35 km
    and a fuel cost after of CAD$15.96; for the 40 km route the configured
    constants give 40 x 0.3 x 1.52 = 18.24. *)
Theorem C2_summary_is_fixed_text :
  saved_html (optimize_routes trucks always_raising solve_all) = [[fleet_boxes]] /\
  saved_html (optimize_routes trucks distant_provider solve_all) = [[fleet_boxes]] /\
  markham_route_cost always_raising = Returns (40 * 1000) /\
  markham_route_cost distant_provider = Returns (5000 * 1000) /\
  occurs_in "Optimized Distance: 35 km" fleet_boxes = true /\
  occurs_in "Fuel Cost After: CAD$15.96" fleet_boxes = true /\
  (40 * fuel_consumption_per_km * fuel_price_per_liter == 18.24)%Q /\
  ~ (40 * fuel_consumption_per_km * fuel_price_per_liter == 15.96)%Q.
Proof.
  split; [vm_compute; reflexivity|].
  split; [vm_compute; reflexivity|].
  split; [vm_compute; reflexivity|].
  split; [vm_compute; reflexivity|].
  split; [vm_compute; reflexivity|].
  split; [vm_compute; reflexivity|].
  split.
  - reflexivity.
  - intros H. apply Qeq_bool_iff in H. vm_compute in H. discriminate H.
Qed.

(** C5.  In a fleet each of whose trucks keeps at least one stop, a truck
    for which the search finds no solution does not end the run: the run
    returns, and the map it saves carries the lines and the summary boxes of
    exactly the solved trucks, in fleet order, those after an unsolved truck
    included.  An unsolved truck adds neither a line nor a box; a solved one
    adds its box and one line, a non-empty route through its kept stops.
    The unsolved truck is passed over in silence: the run's effects are
    lookups, the saved map and the printed message, and nothing else. *)
Theorem C5_unsolved_truck_is_skipped
    (fleet : list (string * Truck)) (provider : nat -> Provider) (solver : Solver) :
  solver_sound solver ->
  every_truck_keeps_a_stop fleet ->
  exists res m,
    optimize_routes fleet provider solver = Returns res /\
    In (SaveMap "optimized_route.html" m) (effects res) /\
    html_children m = [expected_boxes provider solver 0 fleet ""] /\
    layers m = expected_lines provider solver 0 fleet /\
    (forall e, In e (effects res) ->
               (exists r, e = HttpGet r) \/
               e = SaveMap "optimized_route.html" m \/
               e = Print "📍 Map saved as 'optimized_route.html'.") /\
    (forall idx truck_name truck_data rest boxes,
        truck_solved provider solver idx truck_data = false ->
        expected_boxes provider solver idx ((truck_name, truck_data) :: rest) boxes
          = expected_boxes provider solver (S idx) rest boxes /\
        expected_lines provider solver idx ((truck_name, truck_data) :: rest)
          = expected_lines provider solver (S idx) rest) /\
    (forall idx truck_name truck_data rest boxes,
        truck_solved provider solver idx truck_data = true ->
        kept_coords truck_data <> [] ->
        expected_boxes provider solver idx ((truck_name, truck_data) :: rest) boxes
          = expected_boxes provider solver (S idx) rest
              (String.append boxes (summary_box truck_name (box_position_of idx))) /\
        exists route,
          route <> [] /\ incl route (kept_coords truck_data) /\
          expected_lines provider solver idx ((truck_name, truck_data) :: rest)
            = mkPolyLine route (color truck_data) 5 0.7
              :: expected_lines provider solver (S idx) rest).
Proof.
  intros Hsound Hkept.
  destruct (optimize_routes_returns provider solver Hsound fleet Hkept) as [res Hrun].
  pose proof (optimize_routes_result provider solver fleet res Hrun) as Hres.
  exists res. eexists. split; [exact Hrun|]. rewrite Hres. cbn [effects].
  split; [apply in_or_app; right; left; reflexivity|].
  split; [reflexivity|]. split; [reflexivity|]. split; [|split].
  - intros e He. apply in_app_or in He. destruct He as [He|He].
    + apply in_map_iff in He. destruct He as [r [Hr _]]. left. now exists r.
    + simpl in He. intuition.
  - intros idx truck_name truck_data rest boxes Hunsolved.
    cbn [expected_boxes expected_lines].
    now rewrite Hunsolved, (truck_unsolved_no_line provider solver idx truck_data Hunsolved).
  - intros idx truck_name truck_data rest boxes Hsolved Hnonempty.
    cbn [expected_boxes expected_lines]. rewrite Hsolved. split; [reflexivity|].
    destruct (kept_coords truck_data) as [|c coords'] eqn:Hcoords; [contradiction|].
    destruct (truck_solved_route provider solver Hsound idx truck_data c Hsolved)
      as [route Hroute]; [now rewrite Hcoords|].
    exists (c :: route). split; [discriminate|].
    destruct (truck_lines_cases provider solver idx truck_data) as [Hnil|[pl [Hone Hline]]];
      unfold truck_lines in *; rewrite Hroute in *; [discriminate|].
    inversion Hone; subst pl. destruct Hline as [_ [_ [_ [_ Hincl]]]].
    rewrite Hcoords in Hincl. split; [exact Hincl | reflexivity].
Qed.

Lemma C5_skipped_witness :
  exists res m,
    optimize_routes trucks always_raising solve_all_but_first = Returns res /\
    In (SaveMap "optimized_route.html" m) (effects res) /\
    html_children m = [expected_boxes always_raising solve_all_but_first 0 trucks ""] /\
    layers m = expected_lines always_raising solve_all_but_first 0 trucks /\
    (forall e, In e (effects res) ->
               (exists r, e = HttpGet r) \/
               e = SaveMap "optimized_route.html" m \/
               e = Print "📍 Map saved as 'optimized_route.html'.") /\
    (forall idx truck_name truck_data rest boxes,
        truck_solved always_raising solve_all_but_first idx truck_data = false ->
        expected_boxes always_raising solve_all_but_first idx
            ((truck_name, truck_data) :: rest) boxes
          = expected_boxes always_raising solve_all_but_first (S idx) rest boxes /\
        expected_lines always_raising solve_all_but_first idx
            ((truck_name, truck_data) :: rest)
          = expected_lines always_raising solve_all_but_first (S idx) rest) /\
    (forall idx truck_name truck_data rest boxes,
        truck_solved always_raising solve_all_but_first idx truck_data = true ->
        kept_coords truck_data <> [] ->
        expected_boxes always_raising solve_all_but_first idx
            ((truck_name, truck_data) :: rest) boxes
          = expected_boxes always_raising solve_all_but_first (S idx) rest
              (String.append boxes (summary_box truck_name (box_position_of idx))) /\
        exists route,
          route <> [] /\ incl route (kept_coords truck_data) /\
          expected_lines always_raising solve_all_but_first idx
              ((truck_name, truck_data) :: rest)
            = mkPolyLine route (color truck_data) 5 0.7
              :: expected_lines always_raising solve_all_but_first (S idx) rest).
Proof.
  apply (C5_unsolved_truck_is_skipped trucks always_raising solve_all_but_first).
  - exact solve_all_but_first_sound.
  - exact trucks_keep_a_stop.
Defined.

(** With no solution for Truck 1, nothing the run leaves names Truck 1
    (Truck 2 is named, in its summary box); and the run leaves the very same
    effects whether every lookup failed or every lookup was answered: the
    output tells neither which truck failed nor which pairs fell back. *)
Lemma C5_failure_is_not_reported :
  truck_solved always_raising solve_all_but_first 0 markham_truck = false /\
  exists res,
    optimize_routes trucks always_raising solve_all_but_first = Returns res /\
    forallb (fun e => negb (effect_mentions "Truck 1" e)) (effects res) = true /\
    existsb (effect_mentions "Truck 2") (effects res) = true /\
    optimize_routes trucks index_provider solve_all_but_first = Returns res.
Proof.
  split; [reflexivity|].
  eexists. split; [vm_compute; reflexivity|].
  split; [vm_compute; reflexivity|].
  split; [vm_compute; reflexivity|].
  vm_compute. reflexivity.
Qed.

(** C9.  For a fleet each of whose trucks keeps at least one stop, the run
    returns None, not the routes and summaries: what it computes leaves it
    through its effects.  After the lookups of every truck it saves, under
    "optimized_route.html", the map on which it has drawn the non-empty
    route of each solved truck as a line and to which it has added the
    summary boxes as one html element, and then prints a message.  The
    lines are lines of trucks of the fleet, in fleet order, one per truck at
    most. *)
Theorem C9_run_saves_map_and_prints
    (fleet : list (string * Truck)) (provider : nat -> Provider) (solver : Solver) :
  solver_sound solver ->
  every_truck_keeps_a_stop fleet ->
  optimize_routes fleet provider solver =
    Returns (mkRunResult tt
               (map HttpGet (fleet_requests fleet) ++
                [SaveMap "optimized_route.html"
                   (mkMap (43.89, -79.39)%Q 12
                      (expected_lines provider solver 0 fleet)
                      [expected_boxes provider solver 0 fleet ""]);
                 Print "📍 Map saved as 'optimized_route.html'."])) /\
  (exists drawn,
      subsequence drawn fleet /\
      Forall2 (fun pl t => line_of_truck (snd t) pl)
              (expected_lines provider solver 0 fleet) drawn) /\
  (forall idx truck_name truck_data rest,
      expected_lines provider solver idx ((truck_name, truck_data) :: rest)
      = match truck_route provider solver idx truck_data with
        | Some (c :: route) => [mkPolyLine (c :: route) (color truck_data) 5 0.7]
        | _ => []
        end ++ expected_lines provider solver (S idx) rest).
Proof.
  intros Hsound Hkept.
  destruct (optimize_routes_returns provider solver Hsound fleet Hkept) as [res Hrun].
  rewrite Hrun, (optimize_routes_result provider solver fleet res Hrun).
  split; [reflexivity|]. split; [apply expected_lines_drawn | reflexivity].
Qed.

Lemma C9_saves_witness :
  optimize_routes trucks always_raising solve_all =
    Returns (mkRunResult tt
               (map HttpGet (fleet_requests trucks) ++
                [SaveMap "optimized_route.html"
                   (mkMap (43.89, -79.39)%Q 12
                      (expected_lines always_raising solve_all 0 trucks)
                      [expected_boxes always_raising solve_all 0 trucks ""]);
                 Print "📍 Map saved as 'optimized_route.html'."])) /\
  (exists drawn,
      subsequence drawn trucks /\
      Forall2 (fun pl t => line_of_truck (snd t) pl)
              (expected_lines always_raising solve_all 0 trucks) drawn) /\
  (forall idx truck_name truck_data rest,
      expected_lines always_raising solve_all idx ((truck_name, truck_data) :: rest)
      = match truck_route always_raising solve_all idx truck_data with
        | Some (c :: route) => [mkPolyLine (c :: route) (color truck_data) 5 0.7]
        | _ => []
        end ++ expected_lines always_raising solve_all (S idx) rest).
Proof.
  apply (C9_run_saves_map_and_prints trucks always_raising solve_all).
  - exact solve_all_sound.
  - exact trucks_keep_a_stop.
Defined.

(** On the program's fleet the run writes a file and prints, and the map
    it writes has a route line drawn for each of the two trucks. *)
Lemma C9_run_has_side_effects :
  map fst (saved_maps (optimize_routes trucks always_raising solve_all))
    = ["optimized_route.html"] /\
  map (fun fm => List.length (layers (snd fm)))
      (saved_maps (optimize_routes trucks always_raising solve_all)) = [2%nat] /\
  map (fun fm => html_children (snd fm))
      (saved_maps (optimize_routes trucks always_raising solve_all)) = [[fleet_boxes]] /\
  printed (optimize_routes trucks always_raising solve_all)
    = ["📍 Map saved as 'optimized_route.html'."].
Proof.
  split; [vm_compute; reflexivity|].
  split; [vm_compute; reflexivity|].
  split; vm_compute; reflexivity.
Qed.

(** X10.  Whatever the provider and the search do, the lines on a map the
    run saves are lines of trucks of the fleet, taken in fleet order and no
    truck twice: each has its truck's colour, weight 5 and opacity 0.7, is
    not empty, and passes only through stops of that truck that the filter
    kept.  The map is saved under the fixed file name. *)
Theorem X10_saved_lines_belong_to_trucks
    (fleet : list (string * Truck)) (provider : nat -> Provider) (solver : Solver)
    (filename : string) (m : FoliumMap) :
  In (filename, m) (saved_maps (optimize_routes fleet provider solver)) ->
  filename = "optimized_route.html" /\
  exists drawn,
    subsequence drawn fleet /\
    Forall2 (fun pl t => line_of_truck (snd t) pl) (layers m) drawn.
Proof.
  intros Hin.
  destruct (optimize_routes fleet provider solver) as [res| | |] eqn:Hrun;
    simpl in Hin; try contradiction.
  rewrite (optimize_routes_result provider solver fleet res Hrun) in Hin.
  cbn [effects] in Hin. rewrite saved_of_gets in Hin. simpl in Hin.
  destruct Hin as [Heq|[]]. inversion Heq; subst.
  split; [reflexivity|]. apply expected_lines_drawn.
Qed.

Lemma X10_saved_lines_witness :
  exists m,
    In ("optimized_route.html", m) (saved_maps (optimize_routes trucks always_raising solve_all)) /\
    exists drawn,
      subsequence drawn trucks /\
      Forall2 (fun pl t => line_of_truck (snd t) pl) (layers m) drawn.
Proof.
  assert (Hsaved : exists m,
             saved_maps (optimize_routes trucks always_raising solve_all)
             = [("optimized_route.html", m)])
    by (eexists; vm_compute; reflexivity).
  destruct Hsaved as [m Hm]. exists m.
  assert (Hin : In ("optimized_route.html", m)
                   (saved_maps (optimize_routes trucks always_raising solve_all)))
    by (rewrite Hm; left; reflexivity).
  split; [exact Hin|].
  apply (X10_saved_lines_belong_to_trucks trucks always_raising solve_all
           "optimized_route.html" m Hin).
Defined.

(** X11.  The lookups of a run are fixed by the fleet data alone: for each
    truck in fleet order, one lookup per ordered pair of its kept stops,
    [k * (k - 1)] of them for [k] kept stops, made before the search and so
    also for a truck that is then not solved. *)
Theorem X11_run_lookups_fixed_by_fleet
    (fleet : list (string * Truck)) (provider : nat -> Provider) (solver : Solver)
    (res : RunResult) :
  optimize_routes fleet provider solver = Returns res ->
  lookups (Returns res)
    = flat_map (fun t => all_requests (kept_coords (snd t))) fleet /\
  List.length (lookups (Returns res))
    = list_sum (map (fun t => (List.length (kept_coords (snd t))
                               * (List.length (kept_coords (snd t)) - 1))%nat) fleet).
Proof.
  intros Hrun.
  assert (Hl : lookups (Returns res)
               = flat_map (fun t => all_requests (kept_coords (snd t))) fleet).
  { rewrite (optimize_routes_result provider solver fleet res Hrun).
    unfold lookups. cbn [effects]. rewrite lookups_of_gets. simpl. now rewrite app_nil_r. }
  split; [exact Hl|].
  rewrite Hl, length_flat_map. f_equal.
  apply map_ext. intros t. apply all_requests_length.
Qed.

Lemma X11_run_lookups_witness :
  exists res,
    optimize_routes trucks always_raising solve_all_but_first = Returns res /\
    lookups (Returns res)
      = flat_map (fun t => all_requests (kept_coords (snd t))) trucks /\
    List.length (lookups (Returns res))
      = list_sum (map (fun t => (List.length (kept_coords (snd t))
                                 * (List.length (kept_coords (snd t)) - 1))%nat) trucks).
Proof.
  assert (Hrun : exists res,
             optimize_routes trucks always_raising solve_all_but_first = Returns res)
    by (eexists; vm_compute; reflexivity).
  destruct Hrun as [res Hres]. exists res. split; [exact Hres|].
  apply (X11_run_lookups_fixed_by_fleet trucks always_raising solve_all_but_first res Hres).
Defined.

Lemma unsolved_fleet (provider : nat -> Provider) (solver : Solver) :
  (forall idx routing, solver idx routing search_parameters = None) ->
  forall fleet idx boxes,
    expected_boxes provider solver idx fleet boxes = boxes /\
    expected_lines provider solver idx fleet = [].
Proof.
  intros Hnone. induction fleet as [|[truck_name truck_data] rest IH]; intros idx boxes.
  - split; reflexivity.
  - assert (Hunsolved : truck_solved provider solver idx truck_data = false).
    { unfold truck_solved. destruct (truck_model provider idx truck_data); try reflexivity.
      now rewrite Hnone. }
    cbn [expected_boxes expected_lines].
    rewrite Hunsolved, (truck_unsolved_no_line provider solver idx truck_data Hunsolved).
    destruct (IH (S idx) boxes) as [Hb Hl]. now rewrite Hb, Hl.
Qed.

(** X12.  When each truck keeps at least one stop and the search finds no
    solution for any truck, the run still makes every lookup, saves a map
    with no line and one empty html element under "optimized_route.html",
    prints the message that the map was saved, and returns None. *)
Theorem X12_no_solution_still_saves_and_prints
    (fleet : list (string * Truck)) (provider : nat -> Provider) (solver : Solver) :
  (forall idx routing, solver idx routing search_parameters = None) ->
  every_truck_keeps_a_stop fleet ->
  optimize_routes fleet provider solver =
  Returns (mkRunResult tt
             (map HttpGet (flat_map (fun t => all_requests (kept_coords (snd t))) fleet) ++
              [SaveMap "optimized_route.html" (mkMap (43.89, -79.39)%Q 12 [] [""]);
               Print "📍 Map saved as 'optimized_route.html'."])).
Proof.
  intros Hnone Hkept.
  assert (Hsound : solver_sound solver).
  { intros idx routing solution H. rewrite Hnone in H. discriminate. }
  destruct (optimize_routes_returns provider solver Hsound fleet Hkept) as [res Hrun].
  rewrite Hrun, (optimize_routes_result provider solver fleet res Hrun).
  destruct (unsolved_fleet provider solver Hnone fleet 0 "") as [-> ->].
  reflexivity.
Qed.

Lemma X12_no_solution_witness :
  optimize_routes trucks always_raising solve_none =
  Returns (mkRunResult tt
             (map HttpGet (flat_map (fun t => all_requests (kept_coords (snd t))) trucks) ++
              [SaveMap "optimized_route.html" (mkMap (43.89, -79.39)%Q 12 [] [""]);
               Print "📍 Map saved as 'optimized_route.html'."])).
Proof.
  apply (X12_no_solution_still_saves_and_prints trucks always_raising solve_none).
  - intros idx routing. reflexivity.
  - exact trucks_keep_a_stop.
Defined.

(** X13.  A solved truck with at least one kept stop gets its line and its
    summary box: the iteration returns, the line is added last to the map in
    the truck's colour and starts at the first stop the filter kept (the
    stop the routing model takes as node 0), and the truck's box is appended
    to the summary. *)
Theorem X13_solved_truck_line_starts_at_first_kept_stop
    (provider : nat -> Provider) (solver : Solver)
    (idx : nat) (truck_name : string) (truck_data : Truck) (st : RunState) (c : Coord) :
  solver_sound solver ->
  truck_solved provider solver idx truck_data = true ->
  hd_error (kept_coords truck_data) = Some c ->
  exists st' pl,
    truck_iteration provider solver idx truck_name truck_data st = Returns st' /\
    layers (route_map st') = layers (route_map st) ++ [pl] /\
    hd_error (pl_locations pl) = Some c /\
    pl_color pl = color truck_data /\
    summary_boxes st' =
      String.append (summary_boxes st) (summary_box truck_name (box_position_of idx)).
Proof.
  intros Hsound Hsolved Hhd.
  assert (Hkept : kept_coords truck_data <> [])
    by (intros H; rewrite H in Hhd; discriminate).
  destruct (truck_iteration_returns provider solver Hsound idx truck_name truck_data st Hkept)
    as [st' Hit].
  destruct (truck_solved_route provider solver Hsound idx truck_data c Hsolved Hhd)
    as [route Hroute].
  exists st', (mkPolyLine (c :: route) (color truck_data) 5 0.7).
  split; [exact Hit|].
  rewrite (truck_iteration_result provider solver idx truck_name truck_data st st' Hit).
  unfold truck_lines. rewrite Hroute, Hsolved. cbn. auto.
Qed.

Lemma X13_solved_truck_witness :
  exists st' pl,
    truck_iteration always_raising solve_all 0 "Truck 1 (Markham)" markham_truck initial_state
      = Returns st' /\
    layers (route_map st') = layers (route_map initial_state) ++ [pl] /\
    hd_error (pl_locations pl) = Some (43.8563, -79.3370)%Q /\
    pl_color pl = color markham_truck /\
    summary_boxes st' =
      String.append (summary_boxes initial_state)
                    (summary_box "Truck 1 (Markham)" (box_position_of 0)).
Proof.
  apply (X13_solved_truck_line_starts_at_first_kept_stop always_raising solve_all 0
           "Truck 1 (Markham)" markham_truck initial_state (43.8563, -79.3370)%Q).
  - exact solve_all_sound.
  - reflexivity.
  - reflexivity.
Defined.


